(** * mcp-server-time: the time service (internal/time/service.go, types.go)

    A shallow embedding of the time service and of the parts of Go's
    [time] and [strconv] packages (Go 1.23, the toolchain of the
    repository's Dockerfile) that the service calls, followed by the
    properties of the service.

    Conventions.
    - Go's [int] and [int64] are 64-bit: they are modelled as [Z], and every
      place where the service's own arithmetic can leave the 64-bit range has
      its wrap-around written out ([wrap64]).
    - A [time.Time] is an instant (seconds since the Unix epoch, nanoseconds
      within the second) together with a [*Location].  Go stores the seconds
      counted from year 1; [Unix()] subtracts a constant, so storing the Unix
      seconds is the same data.  The monotonic clock reading plays no part in
      the service and is left out.
    - [*Location] values are compared by pointer in the service
      ([t.Location() == time.UTC]).  [UTC] is the one distinguished pointer;
      every other location (Local, a zone loaded from the database, a fixed
      zone made by the parser) is a [Zoned] value.
    - The platform (IANA database, local zone, clock, and Go's generic layout
      engine for layouts other than the two RFC 3339 ones) is a record the
      service is parameterised by. *)

From Stdlib Require Import ZArith Lia List Bool String Ascii.
Import ListNotations.
Open Scope string_scope.
Open Scope Z_scope.

(* ------------------------------------------------------------------ *)
(** ** 64-bit integers *)

Definition minInt64 : Z := - 2 ^ 63.
Definition maxInt64 : Z := 2 ^ 63 - 1.

(** Two's-complement reduction of an integer to the [int64] range. *)
Definition wrap64 (x : Z) : Z := (x + 2 ^ 63) mod 2 ^ 64 - 2 ^ 63.

(** Reduction to the [uint64] range. *)
Definition wrapU64 (x : Z) : Z := x mod 2 ^ 64.

Definition inInt64 (x : Z) : Prop := minInt64 <= x <= maxInt64.

(** Optional values: parsers return [None] where Go returns a non-nil error. *)
Definition obind {A B} (o : option A) (k : A -> option B) : option B :=
  match o with Some a => k a | None => None end.

Notation "'do?' x <- o ; k" := (obind o (fun x => k))
  (at level 10, x name, o at level 100, k at level 200).

Definition guard (b : bool) : option unit := if b then Some tt else None.

(* ------------------------------------------------------------------ *)
(** ** Go's [strconv] package, base 10 and 64 bits (itoa.go, atoi.go) *)

Module Strconv.

Definition digitChar (d : Z) : ascii := ascii_of_nat (48 + Z.to_nat d).

Definition isDigit (c : ascii) : bool :=
  let n := Z.of_nat (nat_of_ascii c) in (48 <=? n) && (n <=? 57).

Definition digitVal (c : ascii) : Z := Z.of_nat (nat_of_ascii c) - 48.

(** Decimal digits of [u >= 0], most significant first, in front of [acc]. *)
Fixpoint formatUintAux (fuel : nat) (u : Z) (acc : string) : string :=
  match fuel with
  | O => acc
  | S fuel' =>
      let acc' := String (digitChar (u mod 10)) acc in
      if u <? 10 then acc' else formatUintAux fuel' (u / 10) acc'
  end.

(** A [uint64] has at most 20 decimal digits. *)
Definition formatUint (u : Z) : string := formatUintAux 20 u "".

(** [strconv.FormatInt(i, 10)] *)
Definition FormatInt (i : Z) : string :=
  if i <? 0 then String "-" (formatUint (- i)) else formatUint i.

Fixpoint parseDigits (s : string) (acc : Z) : option Z :=
  match s with
  | "" => Some acc
  | String c r => if isDigit c then parseDigits r (acc * 10 + digitVal c) else None
  end.

(** [strconv.ParseUint(s, 10, 64)]: [None] for a syntax or a range error. *)
Definition ParseUint (s : string) : option Z :=
  match s with
  | "" => None
  | _ => do? n <- parseDigits s 0; if n <? 2 ^ 64 then Some n else None
  end.

(** [strconv.ParseInt(s, 10, 64)]: [None] for a syntax or a range error. *)
Definition ParseInt (s : string) : option Z :=
  match s with
  | "" => None
  | String c r =>
      let '(neg, s') :=
        if Ascii.eqb c "+" then (false, r)
        else if Ascii.eqb c "-" then (true, r)
        else (false, s) in
      do? un <- ParseUint s';
      if negb neg && (un >=? 2 ^ 63) then None
      else if neg && (un >? 2 ^ 63) then None
      else Some (if neg then - un else un)
  end.

End Strconv.

(* ------------------------------------------------------------------ *)
(** ** Go's [time] package: constants and the calendar (time.go) *)

Module GoTime.

Definition secondsPerMinute : Z := 60.
Definition secondsPerHour : Z := 60 * secondsPerMinute.
Definition secondsPerDay : Z := 24 * secondsPerHour.
Definition daysPer400Years : Z := 365 * 400 + 97.
Definition daysPer100Years : Z := 365 * 100 + 24.
Definition daysPer4Years : Z := 365 * 4 + 1.

Definition absoluteZeroYear : Z := -292277022399.
Definition internalYear : Z := 1.
(** [(absoluteZeroYear - internalYear) * 365.2425 * secondsPerDay]; the
    product [365.2425 * 86400] is the integer 31556952. *)
Definition absoluteToInternal : Z := (absoluteZeroYear - internalYear) * 31556952.
Definition internalToAbsolute : Z := - absoluteToInternal.
Definition unixToInternal : Z :=
  (1969 * 365 + 1969 / 4 - 1969 / 100 + 1969 / 400) * secondsPerDay.
Definition internalToUnix : Z := - unixToInternal.

(** [alpha] and [omega]: the beginning and end of time for zone spans. *)
Definition alpha : Z := minInt64.
Definition omega : Z := maxInt64.

(** [daysBefore[m]] counts the days in a non-leap year before month [m+1]. *)
Definition daysBefore : list Z :=
  [0; 31; 59; 90; 120; 151; 181; 212; 243; 273; 304; 334; 365].

Definition daysBeforeAt (i : Z) : Z := nth (Z.to_nat i) daysBefore 0.

Definition isLeap (year : Z) : bool :=
  (Z.rem year 4 =? 0) && (negb (Z.rem year 100 =? 0) || (Z.rem year 400 =? 0)).

Definition January : Z := 1.
Definition February : Z := 2.
Definition March : Z := 3.

Definition daysIn (m year : Z) : Z :=
  if (m =? February) && isLeap year then 29
  else daysBeforeAt m - daysBeforeAt (m - 1).

(** The calendar date of an absolute second count. *)
Record civil := { c_year : Z; c_month : Z; c_day : Z; c_yday : Z }.

(** [absDate(abs, true)] *)
Definition absDate (abs : Z) : civil :=
  let d := abs / secondsPerDay in
  (* Account for 400 year cycles. *)
  let n := d / daysPer400Years in
  let y := 400 * n in
  let d := d - daysPer400Years * n in
  (* Cut off 100-year cycles. *)
  let n := d / daysPer100Years in
  let n := n - Z.shiftr n 2 in
  let y := y + 100 * n in
  let d := d - daysPer100Years * n in
  (* Cut off 4-year cycles. *)
  let n := d / daysPer4Years in
  let y := y + 4 * n in
  let d := d - daysPer4Years * n in
  (* Cut off years within a 4-year cycle. *)
  let n := d / 365 in
  let n := n - Z.shiftr n 2 in
  let y := y + n in
  let d := d - 365 * n in
  let year := y + absoluteZeroYear in
  let yday := d in
  let day := yday in
  if isLeap year && (day =? 31 + 29 - 1) then
    (* Leap day. *)
    {| c_year := year; c_month := February; c_day := 29; c_yday := yday |}
  else
    (* After leap day; pretend it wasn't there. *)
    let day := if isLeap year && (day >? 31 + 29 - 1) then day - 1 else day in
    (* Estimate month on assumption that every month has 31 days. *)
    let month := day / 31 in
    let end_ := daysBeforeAt (month + 1) in
    let '(month, begin) :=
      if day >=? end_ then (month + 1, end_) else (month, daysBeforeAt month) in
    let month := month + 1 in
    {| c_year := year; c_month := month; c_day := day - begin + 1; c_yday := yday |}.

(** [absClock] *)
Definition absClock (abs : Z) : Z * Z * Z :=
  let sec := abs mod secondsPerDay in
  let hour := sec / secondsPerHour in
  let sec := sec - hour * secondsPerHour in
  let min := sec / secondsPerMinute in
  let sec := sec - min * secondsPerMinute in
  (hour, min, sec).

(** [daysSinceEpoch]: days from the absolute epoch to the start of [year]. *)
Definition daysSinceEpoch (year : Z) : Z :=
  let y := wrapU64 (year - absoluteZeroYear) in
  let n := y / 400 in
  let y := y - 400 * n in
  let d := daysPer400Years * n in
  let n := y / 100 in
  let y := y - 100 * n in
  let d := d + daysPer100Years * n in
  let n := y / 4 in
  let y := y - 4 * n in
  let d := d + daysPer4Years * n in
  let n := y in
  d + 365 * n.

(** [norm(hi, lo, base)]: bring [lo] into [0, base), carrying into [hi]. *)
Definition norm (hi lo base : Z) : Z * Z :=
  let '(hi, lo) :=
    if lo <? 0 then
      let n := Z.quot (- lo - 1) base + 1 in (hi - n, lo + n * base)
    else (hi, lo) in
  if lo >=? base then
    let n := Z.quot lo base in (hi + n, lo - n * base)
  else (hi, lo).

(* ------------------------------------------------------------------ *)
(** ** Locations (zoneinfo.go) *)

(** What [Location.lookup] reports for an instant: the zone in use then
    (abbreviation and offset east of UTC in seconds) and the half-open
    interval of Unix seconds [zs_start, zs_end) on which it is in use. *)
Record zoneSpan := { zs_name : string; zs_offset : Z; zs_start : Z; zs_end : Z }.

Inductive Location :=
| UTC                                              (* the pointer [&utcLoc] *)
| Zoned (name : string) (rules : Z -> zoneSpan).   (* any other pointer *)

(** [l == time.UTC] *)
Definition isUTC (l : Location) : bool :=
  match l with UTC => true | Zoned _ _ => false end.

(** [l.String()] *)
Definition LocationString (l : Location) : string :=
  match l with UTC => "UTC" | Zoned n _ => n end.

(** [l.lookup(sec)]; the UTC location has no zones. *)
Definition lookup (l : Location) (sec : Z) : zoneSpan :=
  match l with
  | UTC => {| zs_name := "UTC"; zs_offset := 0; zs_start := alpha; zs_end := omega |}
  | Zoned _ rules => rules sec
  end.

(** [FixedZone(name, offset)]: one zone, in use for all time. *)
Definition FixedZone (name : string) (offset : Z) : Location :=
  Zoned name (fun _ => {| zs_name := name; zs_offset := offset;
                          zs_start := alpha; zs_end := omega |}).

(* ------------------------------------------------------------------ *)
(** ** Instants (time.go) *)

Record Time := { unixSec : Z; nsec : Z; loc : Location }.

(** The zero [Time{}]: January 1, year 1, 00:00:00 UTC. *)
Definition zeroTime : Time := {| unixSec := internalToUnix; nsec := 0; loc := UTC |}.

Definition IsZero (t : Time) : bool := (unixSec t =? internalToUnix) && (nsec t =? 0).

Definition Location_ (t : Time) : Location := loc t.
Definition Unix_ (t : Time) : Z := unixSec t.
Definition UnixMilli_ (t : Time) : Z := wrap64 (unixSec t * 1000 + Z.quot (nsec t) 1000000).
Definition UnixMicro_ (t : Time) : Z := wrap64 (unixSec t * 1000000 + Z.quot (nsec t) 1000).
Definition UnixNano_ (t : Time) : Z := wrap64 (unixSec t * 1000000000 + nsec t).
Definition Nanosecond (t : Time) : Z := nsec t.

(** [t.In(loc)]: the same instant, displayed in [loc]. *)
Definition In_ (t : Time) (l : Location) : Time :=
  {| unixSec := unixSec t; nsec := nsec t; loc := l |}.

(** [t.Zone()] *)
Definition Zone (t : Time) : string * Z :=
  let z := lookup (loc t) (unixSec t) in (zs_name z, zs_offset z).

Definition offsetOf (t : Time) : Z := snd (Zone t).

(** [t.abs()]: seconds since the absolute epoch of the wall clock that [t]
    shows in its location. *)
Definition abs (t : Time) : Z :=
  wrapU64 (unixSec t + zs_offset (lookup (loc t) (unixSec t))
           + (unixToInternal + internalToAbsolute)).

Definition Year (t : Time) : Z := c_year (absDate (abs t)).
Definition Month (t : Time) : Z := c_month (absDate (abs t)).
Definition Day (t : Time) : Z := c_day (absDate (abs t)).
Definition Hour (t : Time) : Z := (abs t mod secondsPerDay) / secondsPerHour.
Definition Minute (t : Time) : Z := (abs t mod secondsPerHour) / secondsPerMinute.
Definition Second (t : Time) : Z := abs t mod secondsPerMinute.

(** [time.Unix(sec, nsec)]: the result is in the Local location. *)
Definition Unix (local : Location) (sec nsec : Z) : Time :=
  let '(sec, nsec) :=
    if (nsec <? 0) || (nsec >=? 1000000000) then
      let n := Z.quot nsec 1000000000 in
      let sec := wrap64 (sec + n) in
      let nsec := nsec - n * 1000000000 in
      if nsec <? 0 then (wrap64 (sec - 1), nsec + 1000000000) else (sec, nsec)
    else (sec, nsec) in
  {| unixSec := sec; nsec := nsec; loc := local |}.

Definition UnixMilli (local : Location) (msec : Z) : Time :=
  Unix local (Z.quot msec 1000) (Z.rem msec 1000 * 1000000).

Definition UnixMicro (local : Location) (usec : Z) : Time :=
  Unix local (Z.quot usec 1000000) (Z.rem usec 1000000 * 1000).

(** [time.Date(year, month, day, hour, min, sec, nsec, loc)] *)
Definition Date (year month day hour min sec nsec : Z) (l : Location) : Time :=
  (* Normalize month, overflowing into year. *)
  let m := month - 1 in
  let '(year, m) := norm year m 12 in
  let month := m + 1 in
  (* Normalize nsec, sec, min, hour, overflowing into day. *)
  let '(sec, nsec) := norm sec nsec 1000000000 in
  let '(min, sec) := norm min sec 60 in
  let '(hour, min) := norm hour min 60 in
  let '(day, hour) := norm day hour 24 in
  (* Compute days since the absolute epoch. *)
  let d := daysSinceEpoch year in
  (* Add in days before this month. *)
  let d := d + daysBeforeAt (month - 1) in
  let d := if isLeap year && (month >=? March) then d + 1 else d in
  (* Add in days before today. *)
  let d := d + (day - 1) in
  (* Add in time elapsed today. *)
  let abs := d * secondsPerDay in
  let abs := abs + (hour * secondsPerHour + min * secondsPerMinute + sec) in
  let unix := wrap64 (abs + (absoluteToInternal + internalToUnix)) in
  (* Look for zone offset for expected time, so we can adjust to UTC. *)
  let z := lookup l unix in
  let unix :=
    if zs_offset z =? 0 then unix
    else
      let utc := wrap64 (unix - zs_offset z) in
      let offset :=
        if (utc <? zs_start z) || (utc >=? zs_end z)
        then zs_offset (lookup l utc) else zs_offset z in
      wrap64 (unix - offset) in
  {| unixSec := unix; nsec := nsec; loc := l |}.

(** [t.AddDate(years, months, days)] *)
Definition AddDate (t : Time) (years months days : Z) : Time :=
  let c := absDate (abs t) in
  let '(hour, min, sec) := absClock (abs t) in
  Date (c_year c + years) (c_month c + months) (c_day c + days)
       hour min sec (nsec t) (Location_ t).

(** [t.addSec(d)] *)
Definition addSec (t : Time) (d : Z) : Time :=
  {| unixSec := wrap64 (unixSec t + d); nsec := nsec t; loc := loc t |}.

(* ------------------------------------------------------------------ *)
(** ** The RFC 3339 layouts (format.go, format_rfc3339.go) *)

Definition RFC3339 : string := "2006-01-02T15:04:05Z07:00".
Definition RFC3339Nano : string := "2006-01-02T15:04:05.999999999Z07:00".

Fixpoint zeros (n : nat) : string :=
  match n with O => "" | S n' => String "0" (zeros n') end.

(** [appendInt(b, x, width)]: the text appended to [b]. *)
Definition appendInt (x : Z) (width : nat) : string :=
  let digits := Strconv.formatUint (Z.abs x) in
  (if x <? 0 then "-" else "") ++ zeros (width - String.length digits) ++ digits.

(** Removal of the trailing ["0"] characters of a string. *)
Fixpoint trimZeros (s : string) : string :=
  match s with
  | "" => ""
  | String c r =>
      match trimZeros r with
      | "" => if Ascii.eqb c "0" then "" else String c ""
      | r' => String c r'
      end
  end.

(** [appendNano(b, nanosec, std)] for [std = stdFracSecond9] with nine
    digits and separator ['.']: the text appended to [b]. *)
Definition appendNano9 (nanosec : Z) : string :=
  if nanosec =? 0 then ""
  else
    match trimZeros (appendInt nanosec 9) with
    | "" => ""
    | digits => String "." digits
    end.

(** [t.appendFormatRFC3339(b, nanos)] *)
Definition appendFormatRFC3339 (t : Time) (nanos : bool) : string :=
  let offset := zs_offset (lookup (loc t) (unixSec t)) in
  let c := absDate (abs t) in
  let '(hour, min, sec) := absClock (abs t) in
  appendInt (c_year c) 4 ++ "-" ++ appendInt (c_month c) 2 ++ "-"
  ++ appendInt (c_day c) 2 ++ "T"
  ++ appendInt hour 2 ++ ":" ++ appendInt min 2 ++ ":" ++ appendInt sec 2
  ++ (if nanos then appendNano9 (Nanosecond t) else "")
  ++ (if offset =? 0 then "Z"
      else
        let zone := Z.quot offset 60 in
        let '(sign, zone) := if zone <? 0 then ("-", - zone) else ("+", zone) in
        sign ++ appendInt (Z.quot zone 60) 2 ++ ":" ++ appendInt (Z.rem zone 60) 2).

(** Go's slice [s[i:j]] and index [s[i]] on strings. *)
Definition slice (s : string) (i j : nat) : string := substring i (j - i) s.
Definition charAt (s : string) (i : nat) : ascii :=
  match get i s with Some c => c | None => "000"%char end.
Definition charIs (s : string) (i : nat) (c : ascii) : bool := Ascii.eqb (charAt s i) c.

(** The [parseUint] closure of [parseRFC3339]: an unsigned decimal within
    [[min, max]]; [None] where the closure clears its [ok] flag. *)
Definition parseUintIn (s : string) (min max : Z) : option Z :=
  do? x <- Strconv.parseDigits s 0;
  if (x <? min) || (max <? x) then None else Some x.

(** Length of the run of digits at the front of [s]. *)
Fixpoint digitRun (s : string) : nat :=
  match s with
  | String c r => if Strconv.isDigit c then S (digitRun r) else O
  | "" => O
  end.

Fixpoint pow10 (n : nat) : Z := match n with O => 1 | S n' => 10 * pow10 n' end.

(** [parseNanoseconds(value, nbytes)] on a [value] that starts with the
    separator followed by [nbytes - 1] digits. *)
Definition parseNanoseconds (value : string) (nbytes : nat) : Z :=
  let nbytes := Nat.min nbytes 10 in
  match Strconv.parseDigits (slice value 1 nbytes) 0 with
  | Some ns => ns * pow10 (10 - nbytes)
  | None => 0
  end.

(** [parseRFC3339(s, local)]: the fast path of [Parse] for the two RFC 3339
    layouts; [None] where it reports [ok = false]. *)
Definition parseRFC3339 (s : string) (local : Location) : option Time :=
  do? _ <- guard (19 <=? String.length s)%nat;
  do? year <- parseUintIn (slice s 0 4) 0 9999;
  do? month <- parseUintIn (slice s 5 7) 1 12;
  do? day <- parseUintIn (slice s 8 10) 1 (daysIn month year);
  do? hour <- parseUintIn (slice s 11 13) 0 23;
  do? min <- parseUintIn (slice s 14 16) 0 59;
  do? sec <- parseUintIn (slice s 17 19) 0 59;
  do? _ <- guard (charIs s 4 "-" && charIs s 7 "-" && charIs s 10 "T"
                  && charIs s 13 ":" && charIs s 16 ":");
  let s := slice s 19 (String.length s) in
  (* Parse the fractional second. *)
  let '(nsec, s) :=
    if (2 <=? String.length s)%nat && charIs s 0 "." && Strconv.isDigit (charAt s 1)
    then
      let n := S (digitRun (slice s 1 (String.length s))) in
      (parseNanoseconds s n, slice s n (String.length s))
    else (0, s) in
  (* Parse the time zone. *)
  let t := Date year month day hour min sec nsec UTC in
  if (String.length s =? 1)%nat && charIs s 0 "Z" then Some t
  else
    do? _ <- guard (String.length s =? 6)%nat;
    do? hr <- parseUintIn (slice s 1 3) 0 23;
    do? mm <- parseUintIn (slice s 4 6) 0 59;
    do? _ <- guard ((charIs s 0 "-" || charIs s 0 "+") && charIs s 3 ":");
    let zoneOffset := (hr * 60 + mm) * 60 in
    let zoneOffset := if charIs s 0 "-" then zoneOffset * -1 else zoneOffset in
    let t := addSec t (- zoneOffset) in
    (* Use local zone with the given offset if possible. *)
    if zs_offset (lookup local (unixSec t)) =? zoneOffset
    then Some (In_ t local)
    else Some (In_ t (FixedZone "" zoneOffset)).

(* ------------------------------------------------------------------ *)
(** ** The platform *)

(** What the service reads from its environment: the IANA database
    ([tzdata name] gives the rules of a zone the database has), the Local
    location, the clock, and Go's layout engine for the layouts that have no
    fast path ([appendFormat] and [parse] of format.go). *)
Record Platform := {
  tzdata : string -> option (Z -> zoneSpan);
  localName : string;
  localRules : Z -> zoneSpan;
  nowSec : Z;
  nowNsec : Z;
  layoutFormat : Time -> string -> string;
  layoutParse : string -> string -> option Time
}.

Section WithPlatform.
Variable P : Platform.

(** [time.Local] *)
Definition Local : Location := Zoned (localName P) (localRules P).

(** [time.Now()] *)
Definition Now : Time := {| unixSec := nowSec P; nsec := nowNsec P; loc := Local |}.

(** [time.LoadLocation(name)]: [None] where Go returns an error. *)
Definition LoadLocation (name : string) : option Location :=
  if String.eqb name "" || String.eqb name "UTC" then Some UTC
  else if String.eqb name "Local" then Some Local
  else match tzdata P name with
       | Some rules => Some (Zoned name rules)
       | None => None
       end.

(** [t.Format(layout)] *)
Definition Format (t : Time) (layout : string) : string :=
  if String.eqb layout RFC3339 then appendFormatRFC3339 t false
  else if String.eqb layout RFC3339Nano then appendFormatRFC3339 t true
  else layoutFormat P t layout.

(** [time.Parse(layout, value)] *)
Definition Parse (layout value : string) : option Time :=
  if String.eqb layout RFC3339 || String.eqb layout RFC3339Nano then
    match parseRFC3339 value Local with
    | Some t => Some t
    | None => layoutParse P layout value
    end
  else layoutParse P layout value.

End WithPlatform.

End GoTime.

(* ------------------------------------------------------------------ *)
(** ** Data types of the service (internal/time/types.go) *)

Import GoTime.

(** [DSTTransitionInfo] *)
Record DSTTransitionInfo := {
  NextTransition : Time;
  TransitionType : string;       (* "enter_dst" or "exit_dst" *)
  OffsetChange : Z               (* seconds *)
}.

(** [TimezoneInfo]; the [DST] field is never set by the service. *)
Record TimezoneInfo := {
  Name : string;
  Abbreviation : string;
  Offset : string;
  OffsetSeconds : Z;
  IsDST : bool;
  DSTTransition : option DSTTransitionInfo
}.

(** [FormatType] constants *)
Definition FormatRFC3339 : string := "RFC3339".
Definition FormatRFC3339Nano : string := "RFC3339Nano".
Definition FormatUnix : string := "Unix".
Definition FormatUnixMilli : string := "UnixMilli".
Definition FormatUnixMicro : string := "UnixMicro".
Definition FormatUnixNano : string := "UnixNano".
Definition FormatLayout : string := "Layout".

Definition IsValidFormat (format : string) : bool :=
  String.eqb format FormatRFC3339 || String.eqb format FormatRFC3339Nano
  || String.eqb format FormatUnix || String.eqb format FormatUnixMilli
  || String.eqb format FormatUnixMicro || String.eqb format FormatUnixNano
  || String.eqb format FormatLayout.

Record ParseTimeInput := {
  pti_TimeString : string;
  pti_Format : string;
  pti_Timezone : string
}.

(** The dynamic type of [FormatTimeInput.Timestamp] ([interface{}]).  A
    [float64] is represented by the value of the conversion [int64(v)], the
    only use the service makes of it. *)
Inductive Timestamp :=
| TsString (v : string)
| TsInt (v : Z)
| TsInt64 (v : Z)
| TsFloat64 (truncated : Z)
| TsTime (v : Time)
| TsOther.

Record FormatTimeInput := {
  fti_Timestamp : Timestamp;
  fti_Format : string;
  fti_Timezone : string
}.

Record GetTimeInput := {
  gti_Timezone : string;
  gti_Format : string
}.

Record TimezoneInfoInput := {
  tii_Timezone : string;
  tii_ReferenceTime : Time
}.

(** [GetTimeResult] and [FormatTimeResult] have the same fields. *)
Record TimeResult := {
  FormattedTime : string;
  Timezone : string;
  Format_ : string;
  UnixTimestamp : Z
}.

Record ParseTimeResult := {
  ptr_UnixTimestamp : Z;
  ptr_RFC3339 : string;
  ptr_Timezone : string;
  ptr_IsDST : bool
}.

(** The errors of the service, one constructor per message it builds with
    [fmt.Errorf]; the wrapped cause is left out. *)
Inductive error :=
| InvalidTimezone (name : string)              (* "invalid timezone %s: %w" *)
| InvalidDestinationTimezone (name : string)   (* "invalid destination timezone %s: %w" *)
| InvalidSourceTimezone (name : string)        (* "invalid source timezone %s: %w" *)
| UnsupportedFormat (format : string) (supported : list string)
                                               (* "unsupported format: %s (supported: %v)" *)
| ParseFailure (timeStr format : string)
                                 (* "failed to parse time string %s with format %s: %w" *)
| TimestampParseFailure                        (* "failed to parse timestamp string: %w" *)
| UnsupportedTimestampType.                    (* "unsupported timestamp type: %T" *)

Inductive result (A : Type) :=
| Ok (a : A)
| Err (e : error).
Arguments Ok {A} a.
Arguments Err {A} e.

Definition rbind {A B} (r : result A) (k : A -> result B) : result B :=
  match r with Ok a => k a | Err e => Err e end.

Notation "'do!' x <- r ; k" := (rbind r (fun x => k))
  (at level 10, x name, r at level 100, k at level 200).

Definition isErr {A} (r : result A) : bool :=
  match r with Ok _ => false | Err _ => true end.

(** [LoadLocation] with the error the caller wraps around its failure. *)
Definition loadOr (P : Platform) (name : string) (e : error) : result Location :=
  match LoadLocation P name with Some l => Ok l | None => Err e end.

(* ------------------------------------------------------------------ *)
(** ** The service (internal/time/service.go) *)

(** [timeService]; the logger has no effect on results and is left out. *)
Record timeService := {
  defaultTimezone : string;
  defaultFormat : string;
  supportedFormats : list string
}.

Definition NewTimeService (defaultTimezone defaultFormat : string)
    (supportedFormats : list string) : timeService :=
  {| defaultTimezone := defaultTimezone;
     defaultFormat := defaultFormat;
     supportedFormats := supportedFormats |}.

Definition orDefault (v dflt : string) : string :=
  if String.eqb v "" then dflt else v.

(** The verb [%02d] of Go's [fmt]: decimal, zero-padded to a width of two
    characters, the sign of a negative number counting as one of them. *)
Definition fmt02d (x : Z) : string :=
  let digits := Strconv.formatUint (Z.abs x) in
  if x <? 0 then "-" ++ zeros (1 - String.length digits) ++ digits
  else zeros (2 - String.length digits) ++ digits.

(** [formatOffset]: the result is
    [fmt.Sprintf("%s%02d:%02d", sign, hours, minutes)]. *)
Definition formatOffset (offsetSeconds : Z) : string :=
  if offsetSeconds =? 0 then "+00:00"
  else
    let '(sign, offsetSeconds) :=
      if offsetSeconds <? 0 then ("-", wrap64 (- offsetSeconds))
      else ("+", offsetSeconds) in
    let hours := Z.quot offsetSeconds 3600 in
    let minutes := Z.quot (Z.rem offsetSeconds 3600) 60 in
    sign ++ fmt02d hours ++ ":" ++ fmt02d minutes.

Section Service.
Variable P : Platform.
Variable s : timeService.

Definition IsFormatSupported (format : string) : bool :=
  existsb (fun supported => String.eqb supported format) (supportedFormats s).

Definition GetSupportedFormats : list string := supportedFormats s.

(** [isDST] *)
Definition isDST (t : Time) (l : Location) : bool :=
  let offset1 := snd (Zone t) in
  let sixMonthsLater := AddDate t 0 6 0 in
  let offset2 := snd (Zone (In_ sixMonthsLater l)) in
  offset1 >? offset2.

(** The loop of [getNextDSTTransition], with [n] iterations left. *)
Fixpoint searchTransition (n : nat) (current : Time) (currentOffset : Z)
    (l : Location) : option DSTTransitionInfo :=
  match n with
  | O => None
  | S n' =>
      let next := AddDate current 0 0 1 in
      let nextInZone := In_ next l in
      let nextOffset := snd (Zone nextInZone) in
      if negb (nextOffset =? currentOffset) then
        let transitionType :=
          if nextOffset <? currentOffset then "exit_dst" else "enter_dst" in
        Some {| NextTransition := nextInZone;
                TransitionType := transitionType;
                OffsetChange := wrap64 (nextOffset - currentOffset) |}
      else searchTransition n' next currentOffset l
  end.

(** [getNextDSTTransition] *)
Definition getNextDSTTransition (t : Time) (l : Location) : option DSTTransitionInfo :=
  let current := t in
  let currentOffset := snd (Zone current) in
  searchTransition 365 current currentOffset l.

(** [formatTimeInternal] *)
Definition formatTimeInternal (t : Time) (format : string) : result string :=
  let format := orDefault format (defaultFormat s) in
  if negb (IsFormatSupported format) then
    Err (UnsupportedFormat format (supportedFormats s))
  else if String.eqb format FormatRFC3339 then Ok (Format P t RFC3339)
  else if String.eqb format FormatRFC3339Nano then Ok (Format P t RFC3339Nano)
  else if String.eqb format FormatUnix then Ok (Strconv.FormatInt (Unix_ t))
  else if String.eqb format FormatUnixMilli then Ok (Strconv.FormatInt (UnixMilli_ t))
  else if String.eqb format FormatUnixMicro then Ok (Strconv.FormatInt (UnixMicro_ t))
  else if String.eqb format FormatUnixNano then Ok (Strconv.FormatInt (UnixNano_ t))
  else Ok (Format P t format).

(** [parseTimeInternal] *)
Definition parseTimeInternal (timeStr format : string) : result Time :=
  let format := orDefault format (defaultFormat s) in
  let parsed :=
    if String.eqb format FormatRFC3339 then Parse P RFC3339 timeStr
    else if String.eqb format FormatRFC3339Nano then Parse P RFC3339Nano timeStr
    else if String.eqb format FormatUnix then
      do? unixTime <- Strconv.ParseInt timeStr; Some (Unix (Local P) unixTime 0)
    else if String.eqb format FormatUnixMilli then
      do? milliTime <- Strconv.ParseInt timeStr; Some (UnixMilli (Local P) milliTime)
    else if String.eqb format FormatUnixMicro then
      do? microTime <- Strconv.ParseInt timeStr; Some (UnixMicro (Local P) microTime)
    else if String.eqb format FormatUnixNano then
      do? nanoTime <- Strconv.ParseInt timeStr; Some (Unix (Local P) 0 nanoTime)
    else Parse P format timeStr in
  match parsed with
  | Some t => Ok t
  | None => Err (ParseFailure timeStr format)
  end.

(** [getCurrentTimeInternal] *)
Definition getCurrentTimeInternal (timezone : string) : result Time :=
  let timezone := orDefault timezone (defaultTimezone s) in
  do! l <- loadOr P timezone (InvalidTimezone timezone);
  Ok (In_ (Now P) l).

(** [GetCurrentTime] *)
Definition GetCurrentTime (input : GetTimeInput) : result TimeResult :=
  let timezone := orDefault (gti_Timezone input) (defaultTimezone s) in
  let format := orDefault (gti_Format input) (defaultFormat s) in
  do! currentTime <- getCurrentTimeInternal timezone;
  do! formatted <- formatTimeInternal currentTime format;
  Ok {| FormattedTime := formatted;
        Timezone := timezone;
        Format_ := format;
        UnixTimestamp := Unix_ currentTime |}.

(** The type switch of [FormatTime] on [input.Timestamp]. *)
Definition timestampToTime (ts : Timestamp) : result Time :=
  match ts with
  | TsString v =>
      (* Try to parse as Unix timestamp first, then as RFC3339 *)
      match Strconv.ParseInt v with
      | Some unixTime => Ok (Unix (Local P) unixTime 0)
      | None =>
          match Parse P RFC3339 v with
          | Some t => Ok t
          | None => Err TimestampParseFailure
          end
      end
  | TsInt v => Ok (Unix (Local P) v 0)
  | TsInt64 v => Ok (Unix (Local P) v 0)
  | TsFloat64 v => Ok (Unix (Local P) v 0)
  | TsTime v => Ok v
  | TsOther => Err UnsupportedTimestampType
  end.

(** [FormatTime] *)
Definition FormatTime (input : FormatTimeInput) : result TimeResult :=
  let format := fti_Format input in
  let timezone := orDefault (fti_Timezone input) (defaultTimezone s) in
  do! t <- timestampToTime (fti_Timestamp input);
  (* Convert to target timezone *)
  do! t <- (if negb (String.eqb timezone "") then
              do! l <- loadOr P timezone (InvalidTimezone timezone); Ok (In_ t l)
            else Ok t);
  do! formatted <- formatTimeInternal t format;
  Ok {| FormattedTime := formatted;
        Timezone := LocationString (Location_ t);
        Format_ := format;
        UnixTimestamp := Unix_ t |}.

(** The instant [ParseTime] reports on: the parsed instant, after the
    timezone (when one is given) has been applied to it. *)
Definition parseTimeZoned (input : ParseTimeInput) : result Time :=
  let timeStr := pti_TimeString input in
  let format := orDefault (pti_Format input) (defaultFormat s) in
  let timezone := pti_Timezone input in
  do! parsedTime <- parseTimeInternal timeStr format;
  (* Apply timezone if specified *)
  if negb (String.eqb timezone "") then
    do! l <- loadOr P timezone (InvalidTimezone timezone);
    (* If the parsed time has no timezone info, assume it's in the specified timezone *)
    if isUTC (Location_ parsedTime) then
      Ok (Date (Year parsedTime) (Month parsedTime) (Day parsedTime)
               (Hour parsedTime) (Minute parsedTime) (Second parsedTime)
               (Nanosecond parsedTime) l)
    else Ok (In_ parsedTime l)
  else Ok parsedTime.

(** [ParseTime] *)
Definition ParseTime (input : ParseTimeInput) : result ParseTimeResult :=
  do! parsedTime <- parseTimeZoned input;
  Ok {| ptr_UnixTimestamp := Unix_ parsedTime;
        ptr_RFC3339 := Format P parsedTime RFC3339;
        ptr_Timezone := LocationString (Location_ parsedTime);
        ptr_IsDST := isDST parsedTime (Location_ parsedTime) |}.

(** [getTimezoneInfoInternal]; [referenceTime] is a pointer that may be nil. *)
Definition getTimezoneInfoInternal (timezone : string) (referenceTime : option Time)
    : result TimezoneInfo :=
  let timezone := orDefault timezone (defaultTimezone s) in
  do! l <- loadOr P timezone (InvalidTimezone timezone);
  (* Use provided reference time or current time *)
  let refTime := match referenceTime with Some r => r | None => Now P end in
  (* Get time in the specified timezone *)
  let timeInZone := In_ refTime l in
  let '(zoneName, offset) := Zone timeInZone in
  Ok {| Name := timezone;
        Abbreviation := zoneName;
        Offset := formatOffset offset;
        OffsetSeconds := offset;
        IsDST := isDST timeInZone l;
        DSTTransition := getNextDSTTransition timeInZone l |}.

(** [GetTimezoneInfo] *)
Definition GetTimezoneInfo (input : TimezoneInfoInput) : result TimezoneInfo :=
  let timezone := orDefault (tii_Timezone input) (defaultTimezone s) in
  let refTime :=
    if negb (IsZero (tii_ReferenceTime input)) then tii_ReferenceTime input
    else Now P in
  getTimezoneInfoInternal timezone (Some refTime).

(** [ConvertTimezone] *)
Definition ConvertTimezone (t : Time) (fromTZ toTZ : string) : result Time :=
  do! toLoc <- loadOr P toTZ (InvalidDestinationTimezone toTZ);
  (* If the time doesn't have location info and fromTZ is specified, set it *)
  do! t <- (if negb (String.eqb fromTZ "") && isUTC (Location_ t) then
              do! fromLoc <- loadOr P fromTZ (InvalidSourceTimezone fromTZ);
              (* Interpret the time as being in the source timezone *)
              Ok (Date (Year t) (Month t) (Day t) (Hour t) (Minute t) (Second t)
                       (Nanosecond t) fromLoc)
            else Ok t);
  Ok (In_ t toLoc).

End Service.

(* ------------------------------------------------------------------ *)
(** ** A small platform on which the service can be run

    A cut-down zone database with the 2023-2025 rules of three zones, a
    Local zone equal to UTC in all but pointer identity, a fixed clock, and a
    layout engine for layouts without any reference element (Go prints such
    a layout as it is and parses exactly that text, to the zero instant). *)

Module Fixture.

Record zoneTrans := { when : Z; tx_name : string; tx_offset : Z }.

(** The span in use at [sec], for transitions sorted by [when]. *)
Fixpoint spanAt (name : string) (offset start : Z) (tx : list zoneTrans) (sec : Z)
    : zoneSpan :=
  match tx with
  | [] => {| zs_name := name; zs_offset := offset; zs_start := start; zs_end := omega |}
  | x :: tx' =>
      if sec <? when x
      then {| zs_name := name; zs_offset := offset; zs_start := start; zs_end := when x |}
      else spanAt (tx_name x) (tx_offset x) (when x) tx' sec
  end.

Definition newYork : Z -> zoneSpan :=
  spanAt "EST" (-18000) alpha
    [ {| when := 1678604400; tx_name := "EDT"; tx_offset := -14400 |};
      {| when := 1699164000; tx_name := "EST"; tx_offset := -18000 |};
      {| when := 1710054000; tx_name := "EDT"; tx_offset := -14400 |};
      {| when := 1730613600; tx_name := "EST"; tx_offset := -18000 |};
      {| when := 1741503600; tx_name := "EDT"; tx_offset := -14400 |};
      {| when := 1762063200; tx_name := "EST"; tx_offset := -18000 |} ].

Definition london : Z -> zoneSpan :=
  spanAt "GMT" 0 alpha
    [ {| when := 1679792400; tx_name := "BST"; tx_offset := 3600 |};
      {| when := 1698541200; tx_name := "GMT"; tx_offset := 0 |};
      {| when := 1711846800; tx_name := "BST"; tx_offset := 3600 |};
      {| when := 1729990800; tx_name := "GMT"; tx_offset := 0 |};
      {| when := 1743296400; tx_name := "BST"; tx_offset := 3600 |};
      {| when := 1761440400; tx_name := "GMT"; tx_offset := 0 |} ].

Definition kolkata : Z -> zoneSpan := spanAt "IST" 19800 alpha [].

Definition platform : Platform :=
  {| tzdata := fun name =>
       if String.eqb name "America/New_York" then Some newYork
       else if String.eqb name "Europe/London" then Some london
       else if String.eqb name "Asia/Kolkata" then Some kolkata
       else None;
     localName := "Local";
     localRules := spanAt "UTC" 0 alpha [];
     nowSec := 1703518245;
     nowNsec := 123456789;
     layoutFormat := fun _ layout => layout;
     layoutParse := fun layout value =>
       if String.eqb layout value then Some zeroTime else None |}.

(** The service of the repository's tests. *)
Definition service : timeService :=
  NewTimeService "UTC" "RFC3339" ["RFC3339"; "Unix"; "UnixMilli"].

(** 2023-12-25T15:30:45.123456789Z, the instant of the repository's tests. *)
Definition testTime : Time := Date 2023 12 25 15 30 45 123456789 UTC.

End Fixture.

(* ------------------------------------------------------------------ *)
(** ** Auxiliary definitions used in the proofs *)

(** [unixToInternal + internalToAbsolute]: the absolute second count of the
    Unix epoch. *)
Definition unixToAbsolute : Z := unixToInternal + internalToAbsolute.

(** Well-formed instants: what every [time.Time] value satisfies. *)
Definition validTime (t : Time) : Prop :=
  inInt64 (unixSec t) /\ 0 <= nsec t < 1000000000.

(** [absDate] after the 400-year cycles have been cut off: [y0] years are
    accounted for and [d] days remain. *)
Definition absDateCycle (y0 d : Z) : civil :=
  let n := d / daysPer100Years in
  let n := n - Z.shiftr n 2 in
  let y := y0 + 100 * n in
  let d := d - daysPer100Years * n in
  let n := d / daysPer4Years in
  let y := y + 4 * n in
  let d := d - daysPer4Years * n in
  let n := d / 365 in
  let n := n - Z.shiftr n 2 in
  let y := y + n in
  let d := d - 365 * n in
  let year := y + absoluteZeroYear in
  let yday := d in
  let day := yday in
  if isLeap year && (day =? 31 + 29 - 1) then
    {| c_year := year; c_month := February; c_day := 29; c_yday := yday |}
  else
    let day := if isLeap year && (day >? 31 + 29 - 1) then day - 1 else day in
    let month := day / 31 in
    let end_ := daysBeforeAt (month + 1) in
    let '(month, begin) :=
      if day >=? end_ then (month + 1, end_) else (month, daysBeforeAt month) in
    let month := month + 1 in
    {| c_year := year; c_month := month; c_day := day - begin + 1; c_yday := yday |}.

(** The day count that [Date] computes from a calendar date. *)
Definition civilDays (year month day : Z) : Z :=
  daysSinceEpoch year + daysBeforeAt (month - 1)
  + (if isLeap year && (month >=? March) then 1 else 0) + (day - 1).

(** The check, for day [d] of the first 400-year cycle, that the date
    [absDate] gives is in range and that [Date] maps it back to [d]. *)
Definition cycleDayOk (d : Z) : bool :=
  let c := absDateCycle 0 d in
  (1 <=? c_month c) && (c_month c <=? 12)
  && (1 <=? c_day c) && (c_day c <=? daysIn (c_month c) (c_year c))
  && (absoluteZeroYear <=? c_year c) && (c_year c <? absoluteZeroYear + 400)
  && (civilDays (c_year c) (c_month c) (c_day c) =? d).

(** [f] holds on [i], [i+1], ..., [i+n-1]. *)
Fixpoint allFrom (n : nat) (i : Z) (f : Z -> bool) : bool :=
  match n with
  | O => true
  | S n' => if f i then allFrom n' (i + 1) f else false
  end.

(** The last step of [Date]: from the second count of a wall clock reading
    (as if it were UTC) to the instant that shows it in location [l]. *)
Definition wallToUnix (l : Location) (unix : Z) : Z :=
  let z := lookup l unix in
  if zs_offset z =? 0 then unix
  else
    let utc := wrap64 (unix - zs_offset z) in
    let offset :=
      if (utc <? zs_start z) || (utc >=? zs_end z)
      then zs_offset (lookup l utc) else zs_offset z in
    wrap64 (unix - offset).

(** The offset of location [l] at the instant [t]. *)
Definition offsetAt (l : Location) (t : Time) : Z := zs_offset (lookup l (unixSec t)).

(** The instant [k] calendar days after [t]: [AddDate(0, 0, 1)], [k] times. *)
Fixpoint dayAfter (t : Time) (k : nat) : Time :=
  match k with
  | O => t
  | S k' => AddDate (dayAfter t k') 0 0 1
  end.

(** The offset the transition search sees on day [k]: on day 0 the offset
    that [t] carries, on a later day the offset of [l] at that day. *)
Definition offsetOnDay (t : Time) (l : Location) (k : nat) : Z :=
  match k with
  | O => snd (Zone t)
  | S _ => offsetAt l (dayAfter t k)
  end.

(** A result with its [Format] field replaced. *)
Definition withFormat (format : string) (r : TimeResult) : TimeResult :=
  {| FormattedTime := FormattedTime r; Timezone := Timezone r;
     Format_ := format; UnixTimestamp := UnixTimestamp r |}.

Definition rmap {A B} (f : A -> B) (r : result A) : result B :=
  match r with Ok a => Ok (f a) | Err e => Err e end.

(** The result [ParseTime] builds from the instant it settled on. *)
Definition parseTimeResultOf (P : Platform) (parsedTime : Time) : ParseTimeResult :=
  {| ptr_UnixTimestamp := Unix_ parsedTime;
     ptr_RFC3339 := Format P parsedTime RFC3339;
     ptr_Timezone := LocationString (Location_ parsedTime);
     ptr_IsDST := isDST parsedTime (Location_ parsedTime) |}.

(** The wall clock reading of an instant: the fields a [Time] shows. *)
Definition wallFields (t : Time) : Z * Z * Z * Z * Z * Z * Z :=
  (Year t, Month t, Day t, Hour t, Minute t, Second t, Nanosecond t).

(** A number below 100 as two decimal digits. *)
Definition twoDigits (n : Z) : string :=
  String (Strconv.digitChar (n / 10)) (String (Strconv.digitChar (n mod 10)) "").

Definition signOf (offset : Z) : string := if offset <? 0 then "-" else "+".

(** A non-negative number in decimal, with a leading zero when it has a
    single digit: zero-padding to two digits. *)
Definition zeroPad2 (n : Z) : string :=
  if n <? 10 then String "0" (Strconv.formatUint n) else Strconv.formatUint n.

(** A number below 10000 as four decimal digits. *)
Definition fourDigits (n : Z) : string :=
  String (Strconv.digitChar (n / 1000))
    (String (Strconv.digitChar (n / 100 mod 10))
       (String (Strconv.digitChar (n / 10 mod 10))
          (String (Strconv.digitChar (n mod 10)) ""))).

Fixpoint allDigits (s : string) : bool :=
  match s with
  | "" => true
  | String c r => Strconv.isDigit c && allDigits r
  end.

(** The time zone part of [parseRFC3339]: [s] is what is left of the input
    after the fractional second, [t] the date and time read so far, in UTC. *)
Definition parseRFC3339Zone (s : string) (t : Time) (local : Location) : option Time :=
  if (String.length s =? 1)%nat && charIs s 0 "Z" then Some t
  else
    do? _ <- guard (String.length s =? 6)%nat;
    do? hr <- parseUintIn (slice s 1 3) 0 23;
    do? mm <- parseUintIn (slice s 4 6) 0 59;
    do? _ <- guard ((charIs s 0 "-" || charIs s 0 "+") && charIs s 3 ":");
    let zoneOffset := (hr * 60 + mm) * 60 in
    let zoneOffset := if charIs s 0 "-" then zoneOffset * -1 else zoneOffset in
    let t := addSec t (- zoneOffset) in
    if zs_offset (lookup local (unixSec t)) =? zoneOffset
    then Some (In_ t local)
    else Some (In_ t (FixedZone "" zoneOffset)).

(** The part of [parseRFC3339] after the date and time fields: [s] is what
    is left of the input after the seconds. *)
Definition parseRFC3339Tail (s : string) (year month day hour min sec : Z)
    (local : Location) : option Time :=
  let '(nsec, s) :=
    if (2 <=? String.length s)%nat && charIs s 0 "." && Strconv.isDigit (charAt s 1)
    then
      let n := S (digitRun (slice s 1 (String.length s))) in
      (parseNanoseconds s n, slice s n (String.length s))
    else (0, s) in
  parseRFC3339Zone s (Date year month day hour min sec nsec UTC) local.

(** The zone text that [appendFormatRFC3339] prints for an offset. *)
Definition zoneText (offset : Z) : string :=
  if offset =? 0 then "Z"
  else
    let zone := Z.quot offset 60 in
    let '(sign, zone) := if zone <? 0 then ("-", - zone) else ("+", zone) in
    sign ++ appendInt (Z.quot zone 60) 2 ++ ":" ++ appendInt (Z.rem zone 60) 2.

(** Instants that the RFC 3339 layouts can print and read back: a year of
    four digits and an offset of whole minutes, less than a day. *)
Definition rfc3339Printable (t : Time) : Prop :=
  0 <= Year t <= 9999
  /\ offsetOf t mod 60 = 0
  /\ - 86400 < offsetOf t < 86400.

(* ================================================================== *)
(** * Properties *)

(* ------------------------------------------------------------------ *)
(** ** 64-bit arithmetic *)

Lemma wrap64_small (x : Z) : inInt64 x -> wrap64 x = x.
Proof.
  unfold inInt64, minInt64, maxInt64, wrap64. intros H.
  rewrite Z.mod_small; lia.
Qed.

Lemma wrap64_range (x : Z) : inInt64 (wrap64 x).
Proof.
  unfold inInt64, minInt64, maxInt64, wrap64.
  pose proof (Z.mod_pos_bound (x + 2 ^ 63) (2 ^ 64) ltac:(lia)). lia.
Qed.

Lemma wrap64_wrapU64_add (x c : Z) : wrap64 (wrapU64 x + c) = wrap64 (x + c).
Proof.
  unfold wrap64, wrapU64.
  rewrite <- (Z.add_assoc (x mod 2 ^ 64)), Z.add_mod_idemp_l by lia.
  now rewrite Z.add_assoc.
Qed.

Lemma wrapU64_wrap64_add (x c : Z) : wrapU64 (wrap64 x + c) = wrapU64 (x + c).
Proof.
  unfold wrap64, wrapU64.
  rewrite (Z.mod_eq (x + 2 ^ 63)) by lia.
  replace (x + 2 ^ 63 - 2 ^ 64 * ((x + 2 ^ 63) / 2 ^ 64) - 2 ^ 63 + c)
    with (x + c + (- ((x + 2 ^ 63) / 2 ^ 64)) * 2 ^ 64) by lia.
  now rewrite Z.mod_add by lia.
Qed.

Lemma allFrom_spec (f : Z -> bool) (n : nat) :
  forall i, allFrom n i f = true ->
  forall j, i <= j < i + Z.of_nat n -> f j = true.
Proof.
  induction n as [|n IH]; intros i H j Hj.
  - simpl in Hj. lia.
  - simpl in H. destruct (f i) eqn:Hi; [|discriminate].
    destruct (Z.eq_dec j i) as [->|Hne]; [exact Hi|].
    apply (IH (i + 1) H). lia.
Qed.

(* ------------------------------------------------------------------ *)
(** ** The calendar: [Date] inverts [absDate] *)

Lemma cycle_days_ok : allFrom (Z.to_nat daysPer400Years) 0 cycleDayOk = true.
Proof. vm_compute. reflexivity. Qed.

Lemma rem_eqb0 (x m : Z) : 0 < m -> (Z.rem x m =? 0) = (x mod m =? 0).
Proof.
  intros Hm.
  destruct (Z.eqb_spec (Z.rem x m) 0) as [H|H];
    destruct (Z.eqb_spec (x mod m) 0) as [H'|H']; try reflexivity; exfalso.
  - apply H'. apply Z.rem_divide in H; [|lia].
    apply Z.mod_divide; [lia|exact H].
  - apply H. apply Z.mod_divide in H'; [|lia].
    apply Z.rem_divide; [lia|exact H'].
Qed.

Lemma isLeap_mod (y : Z) :
  isLeap y = (y mod 4 =? 0) && (negb (y mod 100 =? 0) || (y mod 400 =? 0)).
Proof. unfold isLeap. now rewrite !rem_eqb0 by lia. Qed.

Lemma isLeap_shift (k y : Z) : isLeap (400 * k + y) = isLeap y.
Proof.
  rewrite !isLeap_mod.
  replace ((400 * k + y) mod 4) with (y mod 4)
    by (replace (400 * k + y) with (y + (100 * k) * 4) by lia;
        now rewrite Z.mod_add by lia).
  replace ((400 * k + y) mod 100) with (y mod 100)
    by (replace (400 * k + y) with (y + (4 * k) * 100) by lia;
        now rewrite Z.mod_add by lia).
  replace ((400 * k + y) mod 400) with (y mod 400)
    by (replace (400 * k + y) with (y + k * 400) by lia;
        now rewrite Z.mod_add by lia).
  reflexivity.
Qed.

Lemma absDate_cycle (a : Z) :
  absDate a =
  absDateCycle (400 * (a / secondsPerDay / daysPer400Years))
               (a / secondsPerDay
                - daysPer400Years * (a / secondsPerDay / daysPer400Years)).
Proof. reflexivity. Qed.

(** Shifting by whole 400-year cycles moves the year and nothing else. *)
Lemma absDateCycle_shift (k d : Z) :
  absDateCycle (400 * k) d =
  let c := absDateCycle 0 d in
  {| c_year := c_year c + 400 * k; c_month := c_month c;
     c_day := c_day c; c_yday := c_yday c |}.
Proof.
  unfold absDateCycle. cbv zeta.
  set (n1 := d / daysPer100Years - Z.shiftr (d / daysPer100Years) 2).
  set (d1 := d - daysPer100Years * n1).
  set (n2 := d1 / daysPer4Years).
  set (d2 := d1 - daysPer4Years * n2).
  set (n3 := d2 / 365 - Z.shiftr (d2 / 365) 2).
  set (d3 := d2 - 365 * n3).
  replace (400 * k + 100 * n1 + 4 * n2 + n3 + absoluteZeroYear)
    with (400 * k + (0 + 100 * n1 + 4 * n2 + n3 + absoluteZeroYear)) by lia.
  rewrite isLeap_shift.
  set (y := 0 + 100 * n1 + 4 * n2 + n3 + absoluteZeroYear).
  destruct (isLeap y && (d3 =? 31 + 29 - 1)).
  - cbn [c_year c_month c_day c_yday]. f_equal. lia.
  - set (day := if isLeap y && (d3 >? 31 + 29 - 1) then d3 - 1 else d3).
    destruct (day >=? daysBeforeAt (day / 31 + 1));
      cbn [c_year c_month c_day c_yday]; f_equal; lia.
Qed.

Lemma daysSinceEpoch_shift (k y : Z) :
  0 <= y - absoluteZeroYear -> 0 <= k ->
  y + 400 * k - absoluteZeroYear < 2 ^ 64 ->
  daysSinceEpoch (y + 400 * k) = daysSinceEpoch y + daysPer400Years * k.
Proof.
  intros Hy Hk Hlt. unfold daysSinceEpoch, wrapU64. cbv zeta.
  rewrite !Z.mod_small by lia.
  replace (y + 400 * k - absoluteZeroYear)
    with (y - absoluteZeroYear + k * 400) by lia.
  set (Y := y - absoluteZeroYear) in *.
  rewrite Z.div_add by lia.
  replace (Y + k * 400 - 400 * (Y / 400 + k)) with (Y - 400 * (Y / 400)) by lia.
  lia.
Qed.

Lemma civilDays_shift (k y m d : Z) :
  0 <= y - absoluteZeroYear -> 0 <= k ->
  y + 400 * k - absoluteZeroYear < 2 ^ 64 ->
  civilDays (y + 400 * k) m d = civilDays y m d + daysPer400Years * k.
Proof.
  intros. unfold civilDays.
  rewrite daysSinceEpoch_shift by assumption.
  replace (y + 400 * k) with (400 * k + y) by lia.
  rewrite isLeap_shift. lia.
Qed.

Lemma daysIn_shift (k y m : Z) : daysIn m (y + 400 * k) = daysIn m y.
Proof.
  unfold daysIn. replace (y + 400 * k) with (400 * k + y) by lia.
  now rewrite isLeap_shift.
Qed.

(** The date of an absolute second count is a calendar date, and [Date]'s
    day count maps it back to the day it came from. *)
Lemma absDate_civilDays (a : Z) :
  0 <= a < 2 ^ 64 ->
  let c := absDate a in
  1 <= c_month c <= 12
  /\ 1 <= c_day c <= daysIn (c_month c) (c_year c)
  /\ 0 <= c_year c - absoluteZeroYear < 2 ^ 63
  /\ civilDays (c_year c) (c_month c) (c_day c) = a / secondsPerDay.
Proof.
  intros Ha. cbv zeta. rewrite absDate_cycle.
  set (D := a / secondsPerDay).
  set (k := D / daysPer400Years).
  set (d := D - daysPer400Years * k).
  assert (HD : 0 <= D < 2 ^ 48).
  { unfold D, secondsPerDay, secondsPerHour, secondsPerMinute.
    split; [apply Z.div_pos; lia|].
    apply Z.div_lt_upper_bound; lia. }
  assert (Hk : 0 <= k < 2 ^ 48).
  { unfold k, daysPer400Years. split; [apply Z.div_pos; lia|].
    apply Z.div_lt_upper_bound; lia. }
  assert (Hd : 0 <= d < daysPer400Years).
  { unfold d, k. pose proof (Z.mod_pos_bound D daysPer400Years ltac:(reflexivity)).
    rewrite Z.mod_eq in H by (unfold daysPer400Years; lia). lia. }
  rewrite absDateCycle_shift. cbv zeta. cbn [c_year c_month c_day c_yday].
  pose proof (allFrom_spec cycleDayOk _ 0 cycle_days_ok d) as Hok.
  rewrite Z2Nat.id in Hok by (unfold daysPer400Years; lia).
  specialize (Hok ltac:(lia)). unfold cycleDayOk in Hok. cbv zeta in Hok.
  set (c := absDateCycle 0 d) in *.
  rewrite !andb_true_iff in Hok.
  destruct Hok as [[[[[[H1 H2] H3] H4] H5] H6] H7].
  apply Z.leb_le in H1, H2, H3, H4, H5. apply Z.ltb_lt in H6. apply Z.eqb_eq in H7.
  rewrite daysIn_shift.
  rewrite civilDays_shift by (unfold absoluteZeroYear in *; lia).
  unfold absoluteZeroYear in *. repeat split; try lia.
Qed.

Lemma norm_id (hi lo base : Z) : 0 <= lo < base -> norm hi lo base = (hi, lo).
Proof.
  intros H. unfold norm.
  destruct (Z.ltb_spec lo 0); [lia|].
  destruct (Z.geb_spec lo base); [lia|reflexivity].
Qed.

Lemma Date_wallToUnix (year month day hour min sec ns : Z) (l : Location) :
  Date year month day hour min sec ns l =
  let '(year, m) := norm year (month - 1) 12 in
  let month := m + 1 in
  let '(sec, ns) := norm sec ns 1000000000 in
  let '(min, sec) := norm min sec 60 in
  let '(hour, min) := norm hour min 60 in
  let '(day, hour) := norm day hour 24 in
  {| unixSec :=
       wallToUnix l
         (wrap64 (civilDays year month day * secondsPerDay
                  + (hour * secondsPerHour + min * secondsPerMinute + sec)
                  + (absoluteToInternal + internalToUnix)));
     nsec := ns; loc := l |}.
Proof.
  unfold Date, wallToUnix, civilDays. cbv zeta.
  destruct (norm year (month - 1) 12) as [y m].
  destruct (norm sec ns 1000000000) as [sec' ns'].
  destruct (norm min sec' 60) as [min' sec''].
  destruct (norm hour min' 60) as [hour' min''].
  destruct (norm day hour' 24) as [day' hour''].
  destruct (isLeap y && (m + 1 >=? March)); rewrite ?Z.add_0_r; reflexivity.
Qed.

(** [Date] on the date and clock reading of an absolute second count [a]
    gives the instant that shows [a] in the location. *)
Lemma Date_of_absDate (a h m s ns : Z) (l : Location) :
  0 <= a < 2 ^ 64 -> 0 <= ns < 1000000000 ->
  0 <= h < 24 -> 0 <= m < 60 -> 0 <= s < 60 ->
  h * secondsPerHour + m * secondsPerMinute + s = a mod secondsPerDay ->
  Date (c_year (absDate a)) (c_month (absDate a)) (c_day (absDate a)) h m s ns l =
  {| unixSec := wallToUnix l (wrap64 (a - unixToAbsolute)); nsec := ns; loc := l |}.
Proof.
  intros Ha Hns Hh Hm Hs Hclock.
  destruct (absDate_civilDays a Ha) as (Hmon & Hday & Hyear & Hdays).
  rewrite Date_wallToUnix.
  rewrite (norm_id _ (c_month (absDate a) - 1)) by lia.
  rewrite !norm_id by lia. cbv beta iota zeta.
  replace (c_month (absDate a) - 1 + 1) with (c_month (absDate a)) by lia.
  rewrite Hdays. f_equal. f_equal. f_equal.
  rewrite <- Z.add_assoc, Hclock.
  pose proof (Z.div_mod a secondsPerDay ltac:(discriminate)) as E.
  unfold unixToAbsolute, internalToAbsolute, internalToUnix. lia.
Qed.

Lemma clock_fields (a : Z) :
  0 <= a ->
  let h := (a mod secondsPerDay) / secondsPerHour in
  let m := (a mod secondsPerHour) / secondsPerMinute in
  let s := a mod secondsPerMinute in
  0 <= h < 24 /\ 0 <= m < 60 /\ 0 <= s < 60
  /\ h * secondsPerHour + m * secondsPerMinute + s = a mod secondsPerDay.
Proof.
  intros Ha. cbv zeta.
  unfold secondsPerDay, secondsPerHour, secondsPerMinute.
  Z.to_euclidean_division_equations. lia.
Qed.

Lemma absClock_fields (a : Z) :
  0 <= a ->
  let '(h, m, s) := absClock a in
  0 <= h < 24 /\ 0 <= m < 60 /\ 0 <= s < 60
  /\ h * secondsPerHour + m * secondsPerMinute + s = a mod secondsPerDay.
Proof.
  intros Ha. unfold absClock. cbv zeta.
  unfold secondsPerDay, secondsPerHour, secondsPerMinute.
  Z.to_euclidean_division_equations. lia.
Qed.

Lemma abs_range (t : Time) : 0 <= abs t < 2 ^ 64.
Proof. unfold abs, wrapU64. apply Z.mod_pos_bound. lia. Qed.

(** Rebuilding an instant from the fields it shows: [Date] on the fields of
    [t] gives the instant at which location [l] shows the wall clock that
    [t] shows in its own location. *)
Lemma Date_of_fields (t : Time) (l : Location) :
  0 <= nsec t < 1000000000 ->
  Date (Year t) (Month t) (Day t) (Hour t) (Minute t) (Second t) (Nanosecond t) l =
  {| unixSec := wallToUnix l (wrap64 (unixSec t + offsetOf t));
     nsec := nsec t; loc := l |}.
Proof.
  intros Hns. unfold Year, Month, Day, Hour, Minute, Second, Nanosecond.
  pose proof (abs_range t) as Ha.
  destruct (clock_fields (abs t) ltac:(lia)) as (Hh & Hm & Hs & Hc).
  rewrite (Date_of_absDate _ _ _ _ _ l Ha Hns Hh Hm Hs Hc).
  f_equal. f_equal. unfold abs, offsetOf, Zone. cbn [snd].
  unfold Z.sub. rewrite wrap64_wrapU64_add. f_equal.
  unfold unixToAbsolute. lia.
Qed.

(* ------------------------------------------------------------------ *)
(** ** Small facts about the service *)

Lemma orDefault_nonempty (v d : string) : v <> "" -> orDefault v d = v.
Proof.
  intros H. unfold orDefault. destruct (String.eqb_spec v ""); [contradiction|reflexivity].
Qed.

Lemma orDefault_empty (d : string) : orDefault "" d = d.
Proof. reflexivity. Qed.

Lemma orDefault_self (d : string) : orDefault d d = d.
Proof. unfold orDefault. now destruct (String.eqb_spec d ""). Qed.

Lemma orDefault_idem (v d : string) : orDefault (orDefault v d) d = orDefault v d.
Proof.
  unfold orDefault. destruct (String.eqb_spec v "") as [->|Hv].
  - destruct (String.eqb_spec d ""); congruence.
  - destruct (String.eqb_spec v ""); congruence.
Qed.

Lemma IsFormatSupported_In (s : timeService) (f : string) :
  IsFormatSupported s f = true <-> In f (supportedFormats s).
Proof.
  unfold IsFormatSupported. rewrite existsb_exists. split.
  - intros (x & Hx & E). apply String.eqb_eq in E. now subst.
  - intros H. exists f. split; [exact H|apply String.eqb_refl].
Qed.

Lemma IsFormatSupported_not_In (s : timeService) (f : string) :
  IsFormatSupported s f = false <-> ~ In f (supportedFormats s).
Proof.
  rewrite <- IsFormatSupported_In. destruct (IsFormatSupported s f); split; congruence.
Qed.

Lemma formatTimeInternal_unsupported (P : Platform) (s : timeService) (t : Time)
    (f : string) :
  IsFormatSupported s (orDefault f (defaultFormat s)) = false ->
  formatTimeInternal P s t f =
  Err (UnsupportedFormat (orDefault f (defaultFormat s)) (supportedFormats s)).
Proof. intros H. unfold formatTimeInternal. cbv zeta. now rewrite H. Qed.

Lemma formatTimeInternal_supported (P : Platform) (s : timeService) (t : Time)
    (f : string) :
  IsFormatSupported s (orDefault f (defaultFormat s)) = true ->
  exists out, formatTimeInternal P s t f = Ok out.
Proof.
  intros H. unfold formatTimeInternal. cbv zeta. rewrite H. cbn [negb].
  repeat match goal with
         | |- context [if ?b then _ else _] => destruct b; [eexists; reflexivity|]
         end.
  eexists; reflexivity.
Qed.

Lemma formatTimeInternal_default (P : Platform) (s : timeService) (t : Time)
    (f : string) :
  formatTimeInternal P s t (orDefault f (defaultFormat s)) = formatTimeInternal P s t f.
Proof. unfold formatTimeInternal. cbv zeta. now rewrite orDefault_idem. Qed.

Lemma loadOr_Some (P : Platform) (name : string) (e : error) (l : Location) :
  LoadLocation P name = Some l -> loadOr P name e = Ok l.
Proof. intros H. unfold loadOr. now rewrite H. Qed.

Lemma loadOr_None (P : Platform) (name : string) (e : error) :
  LoadLocation P name = None -> loadOr P name e = Err e.
Proof. intros H. unfold loadOr. now rewrite H. Qed.

Lemma LoadLocation_UTC (P : Platform) : LoadLocation P "UTC" = Some UTC.
Proof. reflexivity. Qed.

Lemma LoadLocation_empty (P : Platform) : LoadLocation P "" = Some UTC.
Proof. reflexivity. Qed.

(* ------------------------------------------------------------------ *)
(** ** C3: the configured list is the gate of formatting *)

(** C3.  For a non-empty identifier [f], [formatTimeInternal] fails with
    [UnsupportedFormat] exactly when [f] is absent from the configured
    [supportedFormats] (it succeeds otherwise), whether or not [f] is one of
    the seven identifiers of [IsValidFormat]; and with
    [supportedFormats = ["RFC3339"]], [FormatTime] of any timestamp that
    converts to an instant, in a timezone that resolves, with format ["Unix"]
    returns [UnsupportedFormat]. *)
Theorem C3_unsupported_iff_absent (P : Platform) (s : timeService) (t : Time)
    (f : string) :
  f <> "" ->
  (formatTimeInternal P s t f = Err (UnsupportedFormat f (supportedFormats s))
   <-> ~ In f (supportedFormats s))
  /\ (isErr (formatTimeInternal P s t f) = true <-> ~ In f (supportedFormats s))
  /\ (forall (dtz dfmt : string) (input : FormatTimeInput) (t' : Time) (l : Location),
        fti_Format input = "Unix" ->
        timestampToTime P (fti_Timestamp input) = Ok t' ->
        LoadLocation P (orDefault (fti_Timezone input) dtz) = Some l ->
        IsValidFormat "Unix" = true
        /\ FormatTime P (NewTimeService dtz dfmt ["RFC3339"]) input
           = Err (UnsupportedFormat "Unix" ["RFC3339"])).
Proof.
  intros Hf.
  assert (Hd : orDefault f (defaultFormat s) = f) by now apply orDefault_nonempty.
  split; [|split].
  - rewrite <- IsFormatSupported_not_In. split.
    + intros H. destruct (IsFormatSupported s f) eqn:E; [|reflexivity].
      destruct (formatTimeInternal_supported P s t f) as [out Ho]; [now rewrite Hd|].
      congruence.
    + intros H. rewrite formatTimeInternal_unsupported; now rewrite Hd.
  - rewrite <- IsFormatSupported_not_In. split.
    + intros H. destruct (IsFormatSupported s f) eqn:E; [|reflexivity].
      destruct (formatTimeInternal_supported P s t f) as [out Ho]; [now rewrite Hd|].
      rewrite Ho in H. discriminate.
    + intros H. rewrite formatTimeInternal_unsupported; now rewrite Hd.
  - intros dtz dfmt input t' l HF Hts Hl. split; [reflexivity|].
    unfold FormatTime. cbv zeta. rewrite Hts. cbn [rbind defaultTimezone NewTimeService].
    rewrite (loadOr_Some _ _ _ _ Hl). cbn [rbind].
    rewrite HF.
    destruct (negb (String.eqb (orDefault (fti_Timezone input) dtz) ""));
      cbn [rbind]; rewrite formatTimeInternal_unsupported; reflexivity.
Qed.

Lemma C3_witness :
  "Unix" <> ""
  /\ FormatTime Fixture.platform (NewTimeService "UTC" "RFC3339" ["RFC3339"])
       {| fti_Timestamp := TsTime Fixture.testTime; fti_Format := "Unix";
          fti_Timezone := "" |}
     = Err (UnsupportedFormat "Unix" ["RFC3339"]).
Proof.
  assert (H : "Unix" <> "") by discriminate.
  split; [exact H|].
  refine (proj2 (proj2 (proj2 (C3_unsupported_iff_absent Fixture.platform
            (NewTimeService "UTC" "RFC3339" ["RFC3339"]) Fixture.testTime "Unix" H))
          "UTC" "RFC3339" _ Fixture.testTime UTC _ _ _)); reflexivity.
Defined.

(* ------------------------------------------------------------------ *)
(** ** C9: the Format field of the results *)

Lemma rbind_Ok {A B} (r : result A) (k : A -> result B) (b : B) :
  rbind r k = Ok b -> exists a, r = Ok a /\ k a = Ok b.
Proof. destruct r as [a|e]; cbn; [eauto|discriminate]. Qed.

(** C9.  A successful [FormatTime] reports the input format string
    unchanged in its [Format] field; when that string is empty the text is
    the one [formatTimeInternal] produces with the configured default format,
    and the field stays empty.  A successful [GetCurrentTime] reports the
    format after the default has been substituted. *)
Theorem C9_format_field (P : Platform) (s : timeService) :
  (forall (input : FormatTimeInput) (r : TimeResult),
      FormatTime P s input = Ok r ->
      Format_ r = fti_Format input
      /\ exists t, Unix_ t = UnixTimestamp r
           /\ formatTimeInternal P s t (orDefault (fti_Format input) (defaultFormat s))
              = Ok (FormattedTime r))
  /\ (forall (input : GetTimeInput) (r : TimeResult),
        GetCurrentTime P s input = Ok r ->
        Format_ r = orDefault (gti_Format input) (defaultFormat s)).
Proof.
  split.
  - intros input r H. unfold FormatTime in H. cbv zeta in H.
    apply rbind_Ok in H. destruct H as (t0 & _ & H).
    apply rbind_Ok in H. destruct H as (t & _ & H).
    apply rbind_Ok in H. destruct H as (out & Hout & H).
    injection H as <-. cbn [Format_ UnixTimestamp FormattedTime].
    split; [reflexivity|]. exists t. split; [reflexivity|].
    now rewrite formatTimeInternal_default.
  - intros input r H. unfold GetCurrentTime in H. cbv zeta in H.
    apply rbind_Ok in H. destruct H as (t0 & _ & H).
    apply rbind_Ok in H. destruct H as (out & _ & H).
    injection H as <-. reflexivity.
Qed.

Lemma C9_witness :
  exists r,
    FormatTime Fixture.platform Fixture.service
      {| fti_Timestamp := TsTime Fixture.testTime; fti_Format := "";
         fti_Timezone := "UTC" |} = Ok r
    /\ FormattedTime r = "2023-12-25T15:30:45Z"
    /\ Format_ r = "".
Proof.
  eexists. split; [vm_compute; reflexivity|]. split; [reflexivity|].
  refine (proj1 (proj1 (C9_format_field Fixture.platform Fixture.service)
                   {| fti_Timestamp := TsTime Fixture.testTime; fti_Format := "";
                      fti_Timezone := "UTC" |} _ _)).
  vm_compute. reflexivity.
Defined.

(* ------------------------------------------------------------------ *)
(** ** C10: when ConvertTimezone resolves the source name *)

Lemma ConvertTimezone_projects (P : Platform) (t : Time) (fromTZ toTZ : string)
    (toLoc : Location) :
  LoadLocation P toTZ = Some toLoc ->
  fromTZ = "" \/ isUTC (Location_ t) = false ->
  ConvertTimezone P t fromTZ toTZ = Ok (In_ t toLoc).
Proof.
  intros Hto Hcase. unfold ConvertTimezone.
  rewrite (loadOr_Some _ _ _ _ Hto). cbn [rbind].
  destruct Hcase as [->| ->]; [reflexivity|]. now rewrite andb_false_r.
Qed.

(** C10.  With a destination that resolves, [ConvertTimezone] looks the
    source name up only when it is non-empty and the instant's location is
    the UTC marker (an unresolvable name is then an error); for an instant in
    any other location, and for an empty source name, the source name is not
    resolved and the call succeeds with the instant projected into the
    destination, even when [LoadLocation] has no such source zone. *)
Theorem C10_source_resolution (P : Platform) (t : Time) (fromTZ toTZ : string)
    (toLoc : Location) :
  LoadLocation P toTZ = Some toLoc ->
  (isUTC (Location_ t) = false ->
   ConvertTimezone P t fromTZ toTZ = Ok (In_ t toLoc))
  /\ (fromTZ = "" -> ConvertTimezone P t fromTZ toTZ = Ok (In_ t toLoc))
  /\ (fromTZ <> "" -> isUTC (Location_ t) = true ->
      LoadLocation P fromTZ = None ->
      ConvertTimezone P t fromTZ toTZ = Err (InvalidSourceTimezone fromTZ)).
Proof.
  intros Hto. split; [|split].
  - intros HU. apply ConvertTimezone_projects; auto.
  - intros E. apply ConvertTimezone_projects; auto.
  - intros Hne HU Hnone. unfold ConvertTimezone.
    rewrite (loadOr_Some _ _ _ _ Hto), HU. cbn [rbind].
    destruct (String.eqb_spec fromTZ ""); [contradiction|].
    cbn [negb andb]. now rewrite (loadOr_None _ _ _ Hnone).
Qed.

Lemma C10_witness :
  LoadLocation Fixture.platform "Nowhere/Land" = None
  /\ rmap unixSec
       (ConvertTimezone Fixture.platform
          (In_ Fixture.testTime (Local Fixture.platform))
          "Nowhere/Land" "America/New_York")
     = Ok 1703518245.
Proof.
  split; [reflexivity|].
  rewrite (proj1 (C10_source_resolution Fixture.platform
                    (In_ Fixture.testTime (Local Fixture.platform))
                    "Nowhere/Land" "America/New_York"
                    (Zoned "America/New_York" Fixture.newYork) eq_refl) eq_refl).
  reflexivity.
Defined.

(* ------------------------------------------------------------------ *)
(** ** C5: the daylight-saving heuristic *)

Lemma Zone_In (t : Time) (l : Location) : snd (Zone (In_ t l)) = offsetAt l t.
Proof. reflexivity. Qed.

Lemma formatOffset_0 : formatOffset 0 = "+00:00".
Proof. reflexivity. Qed.

(** C5.  For a zone that resolves, [GetTimezoneInfo] succeeds and reports
    [IsDST = true] exactly when the zone's offset at the reference instant
    (the clock reading when the input's reference is the zero [Time]) is
    strictly greater than its offset at the instant [AddDate(0, 6, 0)] gives
    from the reference shown in that zone; it reports that offset in
    [OffsetSeconds] and its rendering in [Offset].  For ["UTC"] the offset is
    0, rendered ["+00:00"], and [IsDST] is false. *)
Theorem C5_isDST_heuristic (P : Platform) (s : timeService)
    (input : TimezoneInfoInput) (l : Location) :
  LoadLocation P (orDefault (tii_Timezone input) (defaultTimezone s)) = Some l ->
  let ref := if IsZero (tii_ReferenceTime input) then Now P
             else tii_ReferenceTime input in
  exists info,
    GetTimezoneInfo P s input = Ok info
    /\ (IsDST info = true
        <-> offsetAt l ref > offsetAt l (AddDate (In_ ref l) 0 6 0))
    /\ OffsetSeconds info = offsetAt l ref
    /\ Offset info = formatOffset (offsetAt l ref)
    /\ (tii_Timezone input = "UTC" ->
        OffsetSeconds info = 0 /\ Offset info = "+00:00" /\ IsDST info = false).
Proof.
  intros Hl ref. unfold GetTimezoneInfo, getTimezoneInfoInternal. cbv zeta.
  rewrite orDefault_idem, (loadOr_Some _ _ _ _ Hl). cbn [rbind].
  replace (if negb (IsZero (tii_ReferenceTime input))
           then tii_ReferenceTime input else Now P) with ref
    by (unfold ref; now destruct (IsZero (tii_ReferenceTime input))).
  unfold Zone at 1. cbv zeta.
  eexists. split; [reflexivity|].
  cbn [IsDST OffsetSeconds Offset]. unfold isDST. cbv zeta.
  rewrite !Zone_In. fold (offsetAt l ref).
  split; [|split; [|split]]; try reflexivity.
  - rewrite Z.gtb_gt. reflexivity.
  - intros HU. rewrite HU in Hl. cbn in Hl. injection Hl as <-.
    repeat split; reflexivity.
Qed.

Lemma C5_witness :
  exists info,
    GetTimezoneInfo Fixture.platform Fixture.service
      {| tii_Timezone := "America/New_York";
         tii_ReferenceTime := Fixture.testTime |} = Ok info
    /\ IsDST info = false
    /\ OffsetSeconds info = -18000.
Proof.
  destruct (C5_isDST_heuristic Fixture.platform Fixture.service
              {| tii_Timezone := "America/New_York";
                 tii_ReferenceTime := Fixture.testTime |}
              (Zoned "America/New_York" Fixture.newYork) eq_refl)
    as (info & Hinfo & Hdst & Hoff & _).
  exists info. split; [exact Hinfo|]. split.
  - destruct (IsDST info); [|reflexivity].
    exfalso. apply proj1 in Hdst. specialize (Hdst eq_refl).
    vm_compute in Hdst. discriminate Hdst.
  - rewrite Hoff. vm_compute. reflexivity.
Defined.

(* ------------------------------------------------------------------ *)
(** ** C6: the search for the next transition *)

Lemma dayAfter_S (t : Time) (j : nat) :
  dayAfter t (S j) = AddDate (dayAfter t j) 0 0 1.
Proof. reflexivity. Qed.

Lemma offsetOnDay_S (t : Time) (l : Location) (j : nat) :
  offsetOnDay t l (S j) = offsetAt l (dayAfter t (S j)).
Proof. reflexivity. Qed.

Lemma searchTransition_spec (t : Time) (l : Location) (off0 : Z) :
  forall (n j : nat),
    (forall i, (1 <= i <= j)%nat -> offsetOnDay t l i = off0) ->
    match searchTransition n (dayAfter t j) off0 l with
    | Some tr =>
        exists k, (j < k <= j + n)%nat
          /\ NextTransition tr = In_ (dayAfter t k) l
          /\ offsetOnDay t l k <> off0
          /\ (forall i, (1 <= i < k)%nat -> offsetOnDay t l i = off0)
          /\ TransitionType tr
             = (if offsetOnDay t l k <? off0 then "exit_dst" else "enter_dst")
          /\ OffsetChange tr = wrap64 (offsetOnDay t l k - off0)
    | None => forall i, (1 <= i <= j + n)%nat -> offsetOnDay t l i = off0
    end.
Proof.
  induction n as [|n IH]; intros j Hprev.
  - cbn [searchTransition]. intros i Hi. apply Hprev. lia.
  - cbn [searchTransition]. cbv zeta.
    rewrite <- dayAfter_S, Zone_In, <- offsetOnDay_S.
    destruct (Z.eqb_spec (offsetOnDay t l (S j)) off0) as [E|NE]; cbn [negb].
    + assert (Hprev' : forall i, (1 <= i <= S j)%nat -> offsetOnDay t l i = off0).
      { intros i Hi. destruct (Nat.eq_dec i (S j)) as [->|]; [exact E|].
        apply Hprev. lia. }
      specialize (IH (S j) Hprev').
      destruct (searchTransition n (dayAfter t (S j)) off0 l) as [tr|].
      * destruct IH as (k & Hk & IH). exists k. split; [lia|exact IH].
      * intros i Hi. apply IH. lia.
    + exists (S j). cbn [NextTransition TransitionType OffsetChange].
      repeat split; try lia; try assumption.
      intros i Hi. apply Hprev. lia.
Qed.

(** C6.  [getNextDSTTransition] looks at the days 1, 2, ..., 365 after the
    reference instant, each one [AddDate(0, 0, 1)] after the day before.  When
    it reports a transition, that is the first of these days whose offset
    differs from the offset of the day before it: the reported instant is that
    day shown in the zone, the kind is entering-DST when the new offset is
    greater than the old one and exiting-DST otherwise, and the change is the
    new offset minus the old one (as a 64-bit integer, which is the plain
    difference for offsets that fit 32 bits).  It reports no transition
    exactly when none of the 365 days differs in offset from the day before. *)
Theorem C6_next_transition (t : Time) (l : Location) :
  match getNextDSTTransition t l with
  | Some tr =>
      exists k, (1 <= k <= 365)%nat
        /\ NextTransition tr = In_ (dayAfter t k) l
        /\ offsetOnDay t l k <> offsetOnDay t l (k - 1)
        /\ (forall i, (1 <= i < k)%nat -> offsetOnDay t l i = offsetOnDay t l (i - 1))
        /\ TransitionType tr
           = (if offsetOnDay t l k >? offsetOnDay t l (k - 1)
              then "enter_dst" else "exit_dst")
        /\ OffsetChange tr = wrap64 (offsetOnDay t l k - offsetOnDay t l (k - 1))
        /\ (- 2 ^ 31 <= offsetOnDay t l k < 2 ^ 31 ->
            - 2 ^ 31 <= offsetOnDay t l (k - 1) < 2 ^ 31 ->
            OffsetChange tr = offsetOnDay t l k - offsetOnDay t l (k - 1))
  | None =>
      forall i, (1 <= i <= 365)%nat -> offsetOnDay t l i = offsetOnDay t l (i - 1)
  end.
Proof.
  unfold getNextDSTTransition. cbv zeta.
  pose proof (searchTransition_spec t l (snd (Zone t)) 365 0) as H.
  cbn [dayAfter] in H. specialize (H ltac:(intros; lia)).
  assert (Hprev : forall k : nat,
             (forall i, (1 <= i < k)%nat -> offsetOnDay t l i = snd (Zone t)) ->
             forall i, (1 <= i <= k)%nat -> offsetOnDay t l (i - 1) = snd (Zone t)).
  { intros k Hk i Hi. destruct i as [|[|i]]; [lia|reflexivity|].
    replace (S (S i) - 1)%nat with (S i) by lia. apply Hk. lia. }
  destruct (searchTransition 365 t (snd (Zone t)) l) as [tr|].
  - destruct H as (k & Hk & Hnext & Hne & Hfirst & Hty & Hch).
    pose proof (Hprev k Hfirst k ltac:(lia)) as Hk1.
    exists k. rewrite Hk1. repeat split; try lia; try assumption.
    + intros i Hi. rewrite (Hprev k Hfirst i ltac:(lia)). apply Hfirst. lia.
    + rewrite Hty.
      destruct (Z.ltb_spec (offsetOnDay t l k) (snd (Zone t)));
        destruct (Z.gtb_spec (offsetOnDay t l k) (snd (Zone t)));
        try reflexivity; lia.
    + intros Hr1 Hr2. rewrite Hch. apply wrap64_small.
      unfold inInt64, minInt64, maxInt64. lia.
  - intros i Hi. rewrite (Hprev 366%nat ltac:(intros; apply H; lia) i ltac:(lia)).
    apply H. lia.
Qed.

Lemma C6_witness :
  let t := In_ Fixture.testTime (Zoned "America/New_York" Fixture.newYork) in
  let l := Zoned "America/New_York" Fixture.newYork in
  exists tr k,
    getNextDSTTransition t l = Some tr
    /\ (1 <= k <= 365)%nat
    /\ NextTransition tr = In_ (dayAfter t k) l
    /\ TransitionType tr = "enter_dst".
Proof.
  intros t l.
  pose proof (C6_next_transition t l) as H.
  assert (Ety : option_map TransitionType (getNextDSTTransition t l) = Some "enter_dst")
    by (vm_compute; reflexivity).
  destruct (getNextDSTTransition t l) as [tr|]; [|discriminate Ety].
  destruct H as (k & Hk & Hnext & _).
  exists tr, k. repeat split; try assumption; try lia.
  now injection Ety.
Defined.

(* ------------------------------------------------------------------ *)
(** ** C8: defaults for empty arguments, errors for invalid ones *)

Lemma getCurrentTimeInternal_None (P : Platform) (s : timeService) (tz : string) :
  tz <> "" -> LoadLocation P tz = None ->
  getCurrentTimeInternal P s tz = Err (InvalidTimezone tz).
Proof.
  intros Hne Hl. unfold getCurrentTimeInternal. cbv zeta.
  rewrite (orDefault_nonempty _ _ Hne), (loadOr_None _ _ _ Hl). reflexivity.
Qed.

Lemma isErr_rbind_l {A B} (r : result A) (k : A -> result B) :
  isErr r = true -> isErr (rbind r k) = true.
Proof. destruct r; [discriminate|reflexivity]. Qed.

Lemma isErr_rbind_r {A B} (r : result A) (k : A -> result B) :
  (forall a, isErr (k a) = true) -> isErr (rbind r k) = true.
Proof. intros H. destruct r; [apply H|reflexivity]. Qed.

(** C8, as the service has it.  An empty timezone is replaced by the
    configured default in [GetCurrentTime], [FormatTime] and
    [GetTimezoneInfo]; an empty format is replaced by the configured default
    in [GetCurrentTime], in [FormatTime] (for the text; the [Format] field
    stays empty) and in [ParseTime].  A non-empty timezone that does not
    resolve is an error in [GetCurrentTime], [FormatTime], [ParseTime],
    [GetTimezoneInfo] and as the destination of [ConvertTimezone]; a
    non-empty format that is not in [supportedFormats] is an error in
    [GetCurrentTime] and [FormatTime]. *)
Theorem C8_defaults_and_errors (P : Platform) (s : timeService) :
  (forall f, GetCurrentTime P s {| gti_Timezone := ""; gti_Format := f |}
             = GetCurrentTime P s {| gti_Timezone := defaultTimezone s; gti_Format := f |})
  /\ (forall tz, GetCurrentTime P s {| gti_Timezone := tz; gti_Format := "" |}
                 = GetCurrentTime P s {| gti_Timezone := tz; gti_Format := defaultFormat s |})
  /\ (forall ts f,
        FormatTime P s {| fti_Timestamp := ts; fti_Format := f; fti_Timezone := "" |}
        = FormatTime P s {| fti_Timestamp := ts; fti_Format := f;
                            fti_Timezone := defaultTimezone s |})
  /\ (forall ts tz,
        FormatTime P s {| fti_Timestamp := ts; fti_Format := ""; fti_Timezone := tz |}
        = rmap (withFormat "")
            (FormatTime P s {| fti_Timestamp := ts; fti_Format := defaultFormat s;
                               fti_Timezone := tz |}))
  /\ (forall str tz,
        ParseTime P s {| pti_TimeString := str; pti_Format := ""; pti_Timezone := tz |}
        = ParseTime P s {| pti_TimeString := str; pti_Format := defaultFormat s;
                           pti_Timezone := tz |})
  /\ (forall ref,
        GetTimezoneInfo P s {| tii_Timezone := ""; tii_ReferenceTime := ref |}
        = GetTimezoneInfo P s {| tii_Timezone := defaultTimezone s;
                                 tii_ReferenceTime := ref |})
  /\ (forall tz, tz <> "" -> LoadLocation P tz = None ->
        (forall f, GetCurrentTime P s {| gti_Timezone := tz; gti_Format := f |}
                   = Err (InvalidTimezone tz))
        /\ (forall ts f,
              isErr (FormatTime P s {| fti_Timestamp := ts; fti_Format := f;
                                       fti_Timezone := tz |}) = true)
        /\ (forall str f,
              isErr (ParseTime P s {| pti_TimeString := str; pti_Format := f;
                                      pti_Timezone := tz |}) = true)
        /\ (forall ref,
              GetTimezoneInfo P s {| tii_Timezone := tz; tii_ReferenceTime := ref |}
              = Err (InvalidTimezone tz))
        /\ (forall t fromTZ,
              ConvertTimezone P t fromTZ tz = Err (InvalidDestinationTimezone tz)))
  /\ (forall f, f <> "" -> ~ In f (supportedFormats s) ->
        (forall tz, isErr (GetCurrentTime P s {| gti_Timezone := tz; gti_Format := f |})
                    = true)
        /\ (forall ts tz,
              isErr (FormatTime P s {| fti_Timestamp := ts; fti_Format := f;
                                       fti_Timezone := tz |}) = true)).
Proof.
  repeat apply conj.
  - intros f. unfold GetCurrentTime.
    cbn [gti_Timezone gti_Format]. cbv zeta.
    now rewrite ?orDefault_empty, ?orDefault_self, ?orDefault_idem.
  - intros tz. unfold GetCurrentTime.
    cbn [gti_Timezone gti_Format]. cbv zeta.
    now rewrite ?orDefault_empty, ?orDefault_self, ?orDefault_idem.
  - intros ts f. unfold FormatTime.
    cbn [fti_Timestamp fti_Format fti_Timezone]. cbv zeta.
    now rewrite ?orDefault_empty, ?orDefault_self, ?orDefault_idem.
  - intros ts tz. unfold FormatTime.
    cbn [fti_Timestamp fti_Format fti_Timezone]. cbv zeta.
    destruct (timestampToTime P ts) as [t0|e]; [|reflexivity]. cbn [rbind].
    destruct (if negb (String.eqb (orDefault tz (defaultTimezone s)) "")
              then _ else _) as [t|e]; [|reflexivity].
    cbn [rbind].
    rewrite <- (formatTimeInternal_default P s t ""), orDefault_empty.
    destruct (formatTimeInternal P s t (defaultFormat s)); reflexivity.
  - intros str tz. unfold ParseTime, parseTimeZoned.
    cbn [pti_TimeString pti_Format pti_Timezone]. cbv zeta.
    now rewrite ?orDefault_empty, ?orDefault_self, ?orDefault_idem.
  - intros ref. unfold GetTimezoneInfo.
    cbn [tii_Timezone tii_ReferenceTime]. cbv zeta.
    now rewrite ?orDefault_empty, ?orDefault_self, ?orDefault_idem.
  - intros tz Hne Hl. repeat apply conj.
    + intros f. unfold GetCurrentTime. cbn [gti_Timezone gti_Format]. cbv zeta.
      rewrite (orDefault_nonempty _ _ Hne), (getCurrentTimeInternal_None P s _ Hne Hl).
      reflexivity.
    + intros ts f. unfold FormatTime.
      cbn [fti_Timestamp fti_Format fti_Timezone]. cbv zeta.
      rewrite (orDefault_nonempty _ _ Hne).
      apply isErr_rbind_r. intros t0. apply isErr_rbind_l.
      destruct (String.eqb_spec tz ""); [contradiction|]. cbn [negb].
      rewrite (loadOr_None _ _ _ Hl). reflexivity.
    + intros str f. unfold ParseTime, parseTimeZoned.
      cbn [pti_TimeString pti_Format pti_Timezone]. cbv zeta.
      apply isErr_rbind_l, isErr_rbind_r. intros t0.
      destruct (String.eqb_spec tz ""); [contradiction|]. cbn [negb].
      rewrite (loadOr_None _ _ _ Hl). reflexivity.
    + intros ref. unfold GetTimezoneInfo, getTimezoneInfoInternal.
      cbn [tii_Timezone tii_ReferenceTime]. cbv zeta.
      rewrite orDefault_idem, (orDefault_nonempty _ _ Hne), (loadOr_None _ _ _ Hl).
      reflexivity.
    + intros t fromTZ. unfold ConvertTimezone.
      rewrite (loadOr_None _ _ _ Hl). reflexivity.
  - intros f Hne Hni. split.
    + intros tz. unfold GetCurrentTime. cbn [gti_Timezone gti_Format]. cbv zeta.
      apply isErr_rbind_r. intros t. apply isErr_rbind_l.
      rewrite formatTimeInternal_unsupported; [reflexivity|].
      rewrite orDefault_idem, (orDefault_nonempty _ _ Hne).
      now apply IsFormatSupported_not_In.
    + intros ts tz. unfold FormatTime.
      cbn [fti_Timestamp fti_Format fti_Timezone]. cbv zeta.
      apply isErr_rbind_r. intros t0. apply isErr_rbind_r. intros t.
      apply isErr_rbind_l.
      rewrite formatTimeInternal_unsupported; [reflexivity|].
      rewrite (orDefault_nonempty _ _ Hne).
      now apply IsFormatSupported_not_In.
Qed.

Lemma C8_witness :
  LoadLocation Fixture.platform "Invalid/Timezone" = None
  /\ GetTimezoneInfo Fixture.platform Fixture.service
       {| tii_Timezone := "Invalid/Timezone"; tii_ReferenceTime := zeroTime |}
     = Err (InvalidTimezone "Invalid/Timezone")
  /\ isErr (FormatTime Fixture.platform Fixture.service
              {| fti_Timestamp := TsInt 1703518245; fti_Format := "UnixNano";
                 fti_Timezone := "" |}) = true.
Proof.
  pose proof (C8_defaults_and_errors Fixture.platform Fixture.service) as H.
  destruct H as (_ & _ & _ & _ & _ & _ & Htz & Hf).
  assert (Hne : "Invalid/Timezone" <> "") by discriminate.
  assert (Hnf : "UnixNano" <> "") by discriminate.
  assert (Hni : ~ In "UnixNano" (supportedFormats Fixture.service)).
  { cbn. intros [H|[H|[H|[]]]]; discriminate H. }
  split; [reflexivity|]. split.
  - exact (proj1 (proj2 (proj2 (proj2 (Htz _ Hne eq_refl)))) zeroTime).
  - exact (proj2 (Hf _ Hnf Hni) (TsInt 1703518245) "").
Defined.

(** ParseTime does not follow the policy of C8: a non-empty format that is
    not in [supportedFormats] is used all the same, and an empty timezone is
    not replaced by the configured default. *)
Lemma C8_counterexample :
  let s := NewTimeService "America/New_York" "RFC3339" ["RFC3339"] in
  ("Unix" <> "" /\ ~ In "Unix" (supportedFormats s)
   /\ ParseTime Fixture.platform s
        {| pti_TimeString := "1703518245"; pti_Format := "Unix"; pti_Timezone := "" |}
      = Ok {| ptr_UnixTimestamp := 1703518245;
              ptr_RFC3339 := "2023-12-25T15:30:45Z";
              ptr_Timezone := "Local"; ptr_IsDST := false |})
  /\ (ParseTime Fixture.platform s
        {| pti_TimeString := "2023-12-25T15:30:45Z"; pti_Format := "RFC3339";
           pti_Timezone := "" |}
      = Ok {| ptr_UnixTimestamp := 1703518245;
              ptr_RFC3339 := "2023-12-25T15:30:45Z";
              ptr_Timezone := "UTC"; ptr_IsDST := false |}
      /\ ParseTime Fixture.platform s
           {| pti_TimeString := "2023-12-25T15:30:45Z"; pti_Format := "RFC3339";
              pti_Timezone := defaultTimezone s |}
         = Ok {| ptr_UnixTimestamp := 1703536245;
                 ptr_RFC3339 := "2023-12-25T15:30:45-05:00";
                 ptr_Timezone := "America/New_York"; ptr_IsDST := false |}).
Proof.
  cbv zeta. split; [split; [discriminate|split]|split].
  - cbn. intros [H|[]]. discriminate H.
  - vm_compute. reflexivity.
  - vm_compute. reflexivity.
  - vm_compute. reflexivity.
Qed.

(* ------------------------------------------------------------------ *)
(** ** C1: ConvertTimezone and the Unix seconds *)

Lemma wallToUnix_cases (l : Location) (u : Z) :
  inInt64 u ->
  exists off,
    wallToUnix l u = wrap64 (u - off)
    /\ (off = zs_offset (lookup l u)
        \/ off = zs_offset (lookup l (wrap64 (u - zs_offset (lookup l u))))).
Proof.
  intros Hu. unfold wallToUnix. cbv zeta.
  destruct (Z.eqb_spec (zs_offset (lookup l u)) 0) as [E|NE].
  - exists 0. rewrite E, Z.sub_0_r, wrap64_small by assumption. auto.
  - destruct (_ || _); eexists; split; eauto.
Qed.

Lemma wallToUnix_offset0 (l : Location) (u : Z) :
  zs_offset (lookup l u) = 0 -> wallToUnix l u = u.
Proof. intros E. unfold wallToUnix. cbv zeta. now rewrite E. Qed.

Lemma offsetOf_UTC (t : Time) : isUTC (Location_ t) = true -> offsetOf t = 0.
Proof.
  unfold Location_, offsetOf, Zone. destruct (loc t); [reflexivity|discriminate].
Qed.

(** The instant [Date] gives from the fields of an instant in the UTC
    location. *)
Lemma Date_of_UTC_fields (t : Time) (l : Location) :
  validTime t -> isUTC (Location_ t) = true ->
  Date (Year t) (Month t) (Day t) (Hour t) (Minute t) (Second t) (Nanosecond t) l =
  {| unixSec := wallToUnix l (unixSec t); nsec := nsec t; loc := l |}.
Proof.
  intros [Hs Hn] HU. rewrite (Date_of_fields t l Hn), (offsetOf_UTC t HU), Z.add_0_r.
  now rewrite wrap64_small.
Qed.

(** C1, as the service has it.  With a destination that resolves,
    [ConvertTimezone] returns an instant with the Unix seconds of [t] whenever
    the source name is empty or the location of [t] is not the UTC marker.
    When the source name is non-empty and resolves and the location of [t] is
    the UTC marker, the wall clock reading of [t] is taken as a reading of the
    source zone: the result's Unix seconds are those of [t] minus an offset of
    the source zone (the one in use at the reading taken as UTC, or the one in
    use that offset earlier), so they are those of [t] when the source zone's
    offset there is zero, as for the source ["UTC"]. *)
Theorem C1_unix_seconds (P : Platform) (t : Time) (fromTZ toTZ : string)
    (toLoc : Location) :
  validTime t ->
  LoadLocation P toTZ = Some toLoc ->
  (fromTZ = "" \/ isUTC (Location_ t) = false ->
   exists r, ConvertTimezone P t fromTZ toTZ = Ok r
     /\ Unix_ r = Unix_ t /\ Nanosecond r = Nanosecond t /\ Location_ r = toLoc)
  /\ (forall fromLoc,
        fromTZ <> "" -> isUTC (Location_ t) = true ->
        LoadLocation P fromTZ = Some fromLoc ->
        exists r off,
          ConvertTimezone P t fromTZ toTZ = Ok r
          /\ Location_ r = toLoc /\ Nanosecond r = Nanosecond t
          /\ Unix_ r = wrap64 (Unix_ t - off)
          /\ (off = offsetAt fromLoc t
              \/ off = zs_offset (lookup fromLoc (wrap64 (Unix_ t - offsetAt fromLoc t))))
          /\ (offsetAt fromLoc t = 0 -> Unix_ r = Unix_ t)
          /\ (fromTZ = "UTC" -> Unix_ r = Unix_ t)).
Proof.
  intros Hv Hto. split.
  - intros Hcase. exists (In_ t toLoc). split; [|repeat split].
    now apply ConvertTimezone_projects.
  - intros fromLoc Hne HU Hfrom.
    destruct (wallToUnix_cases fromLoc (unixSec t) (proj1 Hv)) as (off & Hoff & Hwhich).
    exists (In_ {| unixSec := wallToUnix fromLoc (unixSec t); nsec := nsec t;
                   loc := fromLoc |} toLoc), off.
    split; [|repeat split].
    + unfold ConvertTimezone. rewrite (loadOr_Some _ _ _ _ Hto). cbn [rbind].
      destruct (String.eqb_spec fromTZ ""); [contradiction|]. rewrite HU. cbn [negb andb].
      rewrite (loadOr_Some _ _ _ _ Hfrom). cbn [rbind].
      now rewrite (Date_of_UTC_fields t fromLoc Hv HU).
    + exact Hoff.
    + exact Hwhich.
    + intros E. cbn. now apply wallToUnix_offset0.
    + intros ->. cbn in Hfrom. injection Hfrom as <-. reflexivity.
Qed.

Lemma C1_witness :
  exists r,
    ConvertTimezone Fixture.platform Fixture.testTime "" "America/New_York" = Ok r
    /\ Unix_ r = 1703518245.
Proof.
  assert (Hv : validTime Fixture.testTime).
  { unfold validTime, inInt64. vm_compute. repeat split; discriminate. }
  destruct (proj1 (C1_unix_seconds Fixture.platform Fixture.testTime ""
                     "America/New_York" (Zoned "America/New_York" Fixture.newYork)
                     Hv eq_refl) (or_introl eq_refl))
    as (r & Hr & Hu & _).
  exists r. split; [exact Hr|]. rewrite Hu. vm_compute. reflexivity.
Defined.

(** An instant in the UTC location with a source zone that is five hours
    behind: the Unix seconds move by five hours. *)
Lemma C1_counterexample :
  LoadLocation Fixture.platform "America/New_York"
  = Some (Zoned "America/New_York" Fixture.newYork)
  /\ LoadLocation Fixture.platform "UTC" = Some UTC
  /\ Unix_ Fixture.testTime = 1703518245
  /\ rmap Unix_ (ConvertTimezone Fixture.platform Fixture.testTime
                   "America/New_York" "UTC") = Ok 1703536245.
Proof. repeat split; vm_compute; reflexivity. Qed.

(* ------------------------------------------------------------------ *)
(** ** C4: ParseTime with a timezone *)

Lemma ParseTime_parseTimeZoned (P : Platform) (s : timeService) (input : ParseTimeInput) :
  ParseTime P s input = rmap (parseTimeResultOf P) (parseTimeZoned P s input).
Proof. unfold ParseTime. now destruct (parseTimeZoned P s input). Qed.

(** Two instants whose wall clocks agree show the same fields. *)
Lemma wallFields_eq (r p : Time) :
  abs r = abs p -> nsec r = nsec p -> wallFields r = wallFields p.
Proof.
  intros Ha Hn. unfold wallFields, Year, Month, Day, Hour, Minute, Second, Nanosecond.
  now rewrite Ha, Hn.
Qed.

Lemma abs_shift (u u' off : Z) (l l' : Location) (n n' : Z) :
  u' = wrap64 (u - off) ->
  zs_offset (lookup l' u') = off ->
  zs_offset (lookup l u) = 0 ->
  abs {| unixSec := u'; nsec := n'; loc := l' |} = abs {| unixSec := u; nsec := n; loc := l |}.
Proof.
  intros -> Hoff H0. unfold abs. cbn [unixSec loc]. rewrite Hoff, H0.
  rewrite <- Z.add_assoc, wrapU64_wrap64_add. f_equal. lia.
Qed.

(** C4.  [ParseTime] with a non-empty timezone that resolves to [l], on a
    string that parses to the instant [p].  When the location of [p] is the
    UTC marker, the result is [Date] on the year, month, day, hour, minute,
    second and nanosecond that [p] shows, in [l]: its Unix seconds are those
    of [p] minus an offset of [l], its nanoseconds are those of [p], and
    whenever that offset is the one [l] has at the result, the result shows in
    [l] exactly the fields that [p] shows.  When the location of [p] is any
    other, the result is [p] projected into [l], the same instant. *)
Theorem C4_parse_timezone (P : Platform) (s : timeService) (input : ParseTimeInput)
    (p : Time) (l : Location) :
  pti_Timezone input <> "" ->
  parseTimeInternal P s (pti_TimeString input) (pti_Format input) = Ok p ->
  validTime p ->
  LoadLocation P (pti_Timezone input) = Some l ->
  exists r,
    parseTimeZoned P s input = Ok r
    /\ ParseTime P s input = Ok (parseTimeResultOf P r)
    /\ Location_ r = l
    /\ (isUTC (Location_ p) = true ->
        r = Date (Year p) (Month p) (Day p) (Hour p) (Minute p) (Second p)
                 (Nanosecond p) l
        /\ Nanosecond r = Nanosecond p
        /\ exists off,
             Unix_ r = wrap64 (Unix_ p - off)
             /\ (off = offsetAt l p
                 \/ off = zs_offset (lookup l (wrap64 (Unix_ p - offsetAt l p))))
             /\ (offsetOf r = off -> wallFields r = wallFields p))
    /\ (isUTC (Location_ p) = false ->
        r = In_ p l /\ Unix_ r = Unix_ p /\ Nanosecond r = Nanosecond p).
Proof.
  intros Hne Hp Hv Hl.
  assert (Hz : parseTimeZoned P s input =
               Ok (if isUTC (Location_ p)
                   then Date (Year p) (Month p) (Day p) (Hour p) (Minute p)
                             (Second p) (Nanosecond p) l
                   else In_ p l)).
  { unfold parseTimeZoned. cbv zeta.
    unfold parseTimeInternal in *. cbv zeta in *. rewrite orDefault_idem, Hp.
    cbn [rbind]. destruct (String.eqb_spec (pti_Timezone input) ""); [contradiction|].
    cbn [negb]. rewrite (loadOr_Some _ _ _ _ Hl). cbn [rbind].
    now destruct (isUTC (Location_ p)). }
  eexists. split; [exact Hz|]. split; [now rewrite ParseTime_parseTimeZoned, Hz|].
  split; [|split].
  - destruct (isUTC (Location_ p)) eqn:HU; [|reflexivity].
    now rewrite (Date_of_UTC_fields p l Hv HU).
  - intros HU. rewrite HU. split; [reflexivity|].
    rewrite (Date_of_UTC_fields p l Hv HU). split; [reflexivity|].
    destruct (wallToUnix_cases l (unixSec p) (proj1 Hv)) as (off & Hoff & Hwhich).
    exists off. split; [exact Hoff|]. split; [exact Hwhich|].
    intros Hsame. apply wallFields_eq; [|reflexivity].
    destruct p as [u n lp]. cbn [unixSec nsec loc] in *.
    apply abs_shift with (off := off); auto.
    unfold Location_ in HU. cbn in HU. destruct lp; [reflexivity|discriminate].
  - intros HU. rewrite HU. repeat split.
Qed.

Lemma C4_witness :
  let input := {| pti_TimeString := "2023-12-25T15:30:45Z"; pti_Format := "RFC3339";
                  pti_Timezone := "America/New_York" |} in
  let p := {| unixSec := 1703518245; nsec := 0; loc := UTC |} in
  exists r,
    parseTimeZoned Fixture.platform Fixture.service input = Ok r
    /\ wallFields r = (2023, 12, 25, 15, 30, 45, 0)
    /\ wallFields p = (2023, 12, 25, 15, 30, 45, 0)
    /\ Unix_ r = Unix_ p + 18000.
Proof.
  intros input p.
  assert (Hv : validTime p).
  { unfold validTime, inInt64. vm_compute. repeat split; discriminate. }
  destruct (C4_parse_timezone Fixture.platform Fixture.service input p
              (Zoned "America/New_York" Fixture.newYork)
              ltac:(discriminate) eq_refl Hv eq_refl)
    as (r & Hz & _ & _ & Hutc & _).
  destruct (Hutc eq_refl) as (Hr & _ & _).
  exists r. split; [exact Hz|]. rewrite Hr.
  repeat split; vm_compute; reflexivity.
Defined.

(* ------------------------------------------------------------------ *)
(** ** C7: rendering of offsets *)

Lemma formatUintAux_S (fuel : nat) (u : Z) (acc : string) :
  Strconv.formatUintAux (S fuel) u acc
  = if u <? 10 then String (Strconv.digitChar (u mod 10)) acc
    else Strconv.formatUintAux fuel (u / 10) (String (Strconv.digitChar (u mod 10)) acc).
Proof. reflexivity. Qed.

Lemma formatUintAux_length (fuel : nat) :
  forall u acc,
    (String.length acc + 1 <= String.length (Strconv.formatUintAux (S fuel) u acc))%nat.
Proof.
  induction fuel as [|fuel IH]; intros u acc.
  - cbn. destruct (u <? 10); cbn; lia.
  - rewrite formatUintAux_S. destruct (u <? 10).
    + cbn [String.length]. lia.
    + specialize (IH (u / 10) (String (Strconv.digitChar (u mod 10)) acc)).
      cbn [String.length] in IH. lia.
Qed.

Lemma formatUint_digit (n : Z) :
  0 <= n < 10 -> Strconv.formatUint n = String (Strconv.digitChar n) "".
Proof.
  intros H. unfold Strconv.formatUint. rewrite formatUintAux_S.
  destruct (Z.ltb_spec n 10); [|lia]. now rewrite Z.mod_small.
Qed.

Lemma formatUint_two (n : Z) :
  10 <= n < 100 -> Strconv.formatUint n = twoDigits n.
Proof.
  intros H. unfold Strconv.formatUint, twoDigits. rewrite !formatUintAux_S.
  destruct (Z.ltb_spec n 10); [lia|].
  destruct (Z.ltb_spec (n / 10) 10) as [_|Hge].
  - rewrite (Z.mod_small (n / 10)); [reflexivity|].
    split; [apply Z.div_pos; lia|apply Z.div_lt_upper_bound; lia].
  - exfalso. assert (n / 10 < 10) by (apply Z.div_lt_upper_bound; lia). lia.
Qed.

Lemma formatUint_long (n : Z) :
  10 <= n -> (2 <= String.length (Strconv.formatUint n))%nat.
Proof.
  intros H. unfold Strconv.formatUint. rewrite formatUintAux_S.
  destruct (Z.ltb_spec n 10); [lia|].
  pose proof (formatUintAux_length 18 (n / 10)
                (String (Strconv.digitChar (n mod 10)) "")) as L.
  cbn [String.length] in L. lia.
Qed.

Lemma fmt02d_nonneg (n : Z) : 0 <= n -> fmt02d n = zeroPad2 n.
Proof.
  intros H. unfold fmt02d, zeroPad2. cbv zeta.
  destruct (Z.ltb_spec n 0); [lia|]. rewrite Z.abs_eq by lia.
  destruct (Z.ltb_spec n 10).
  - rewrite formatUint_digit by lia. reflexivity.
  - pose proof (formatUint_long n ltac:(lia)) as L.
    replace (2 - String.length (Strconv.formatUint n))%nat with 0%nat by lia.
    reflexivity.
Qed.

Lemma zeroPad2_twoDigits (n : Z) : 0 <= n < 100 -> zeroPad2 n = twoDigits n.
Proof.
  intros H. unfold zeroPad2. destruct (Z.ltb_spec n 10).
  - rewrite formatUint_digit by lia. unfold twoDigits.
    rewrite Z.div_small, Z.mod_small by lia. reflexivity.
  - apply formatUint_two. lia.
Qed.

(** C7, as the service has it.  For every 64-bit offset other than the
    minimum integer, [formatOffset] renders the sign (["-"] below zero,
    ["+"] otherwise), the hours [|offset| / 3600], a colon and the minutes
    [(|offset| mod 3600) / 60], each number in decimal and zero-padded to two
    digits; below 100 hours each field is exactly two digits.  Zero renders
    as ["+00:00"], and the five listed values render as listed. *)
Theorem C7_formatOffset (offset : Z) :
  minInt64 < offset <= maxInt64 ->
  formatOffset offset
  = signOf offset ++ zeroPad2 (Z.abs offset / 3600) ++ ":"
    ++ zeroPad2 ((Z.abs offset mod 3600) / 60)
  /\ (Z.abs offset < 360000 ->
      formatOffset offset
      = signOf offset ++ twoDigits (Z.abs offset / 3600) ++ ":"
        ++ twoDigits ((Z.abs offset mod 3600) / 60))
  /\ (offset = 0 -> formatOffset offset = "+00:00")
  /\ formatOffset 0 = "+00:00"
  /\ formatOffset 3600 = "+01:00"
  /\ formatOffset (-3600) = "-01:00"
  /\ formatOffset 5400 = "+01:30"
  /\ formatOffset (-43200) = "-12:00".
Proof.
  intros Hr.
  assert (Hgen : formatOffset offset
                 = signOf offset ++ zeroPad2 (Z.abs offset / 3600) ++ ":"
                   ++ zeroPad2 ((Z.abs offset mod 3600) / 60)).
  { unfold formatOffset, signOf. destruct (Z.eqb_spec offset 0) as [->|Hnz].
    - reflexivity.
    - destruct (Z.ltb_spec offset 0).
      + rewrite wrap64_small by (unfold inInt64, minInt64, maxInt64 in *; lia).
        rewrite Z.quot_div_nonneg, Z.rem_mod_nonneg by lia.
        rewrite Z.quot_div_nonneg by (try apply Z.mod_pos_bound; lia).
        rewrite Z.abs_neq by lia.
        rewrite !fmt02d_nonneg
          by (apply Z.div_pos; [try apply Z.mod_pos_bound|]; lia).
        reflexivity.
      + rewrite Z.quot_div_nonneg, Z.rem_mod_nonneg by lia.
        rewrite Z.quot_div_nonneg by (try apply Z.mod_pos_bound; lia).
        rewrite Z.abs_eq by lia.
        rewrite !fmt02d_nonneg
          by (apply Z.div_pos; [try apply Z.mod_pos_bound|]; lia).
        reflexivity. }
  split; [exact Hgen|]. split; [|split].
  - intros Hlt. rewrite Hgen.
    rewrite !zeroPad2_twoDigits; [reflexivity| |].
    + pose proof (Z.mod_pos_bound (Z.abs offset) 3600 ltac:(lia)).
      split; [apply Z.div_pos; lia|apply Z.div_lt_upper_bound; lia].
    + split; [apply Z.div_pos; lia|apply Z.div_lt_upper_bound; lia].
  - intros ->. reflexivity.
  - repeat split; reflexivity.
Qed.

Lemma C7_witness :
  minInt64 < 5430 <= maxInt64
  /\ formatOffset 5430 = "+" ++ twoDigits 1 ++ ":" ++ twoDigits 30.
Proof.
  assert (H : minInt64 < 5430 <= maxInt64) by (unfold minInt64, maxInt64; lia).
  split; [exact H|].
  exact (proj1 (proj2 (C7_formatOffset 5430 H)) ltac:(reflexivity)).
Defined.

(** The minimum integer is its own negation: the rendering has two minus
    signs in front and a negative minutes field. *)
Lemma C7_counterexample :
  formatOffset minInt64 = "--2562047788015215:-30"
  /\ formatOffset (- 2 ^ 63) = "--2562047788015215:-30".
Proof. split; vm_compute; reflexivity. Qed.

(* ------------------------------------------------------------------ *)
(** ** Decimal numerals: [ParseInt] inverts [FormatInt] *)

Lemma digit_cases (d : Z) :
  0 <= d < 10 ->
  d = 0 \/ d = 1 \/ d = 2 \/ d = 3 \/ d = 4 \/ d = 5 \/ d = 6 \/ d = 7 \/ d = 8 \/ d = 9.
Proof. lia. Qed.

Ltac each_digit H :=
  apply digit_cases in H;
  repeat (destruct H as [H|H]; [subst; reflexivity|]); subst; reflexivity.

Lemma isDigit_digitChar (d : Z) :
  0 <= d < 10 -> Strconv.isDigit (Strconv.digitChar d) = true.
Proof. intros H. each_digit H. Qed.

Lemma digitVal_digitChar (d : Z) :
  0 <= d < 10 -> Strconv.digitVal (Strconv.digitChar d) = d.
Proof. intros H. each_digit H. Qed.

Lemma digitChar_not_plus (d : Z) :
  0 <= d < 10 -> Ascii.eqb (Strconv.digitChar d) "+" = false.
Proof. intros H. each_digit H. Qed.

Lemma digitChar_not_minus (d : Z) :
  0 <= d < 10 -> Ascii.eqb (Strconv.digitChar d) "-" = false.
Proof. intros H. each_digit H. Qed.

Lemma parseDigits_digit (d : Z) (r : string) (acc : Z) :
  0 <= d < 10 ->
  Strconv.parseDigits (String (Strconv.digitChar d) r) acc
  = Strconv.parseDigits r (acc * 10 + d).
Proof.
  intros H. cbn [Strconv.parseDigits].
  now rewrite isDigit_digitChar, digitVal_digitChar.
Qed.

Lemma mod10_range (u : Z) : 0 <= u mod 10 < 10.
Proof. apply Z.mod_pos_bound. lia. Qed.

(** Reading back the digits that [formatUintAux] puts in front of [acc]. *)
Lemma parseDigits_formatUintAux (fuel : nat) :
  forall u acc,
    0 <= u < pow10 fuel ->
    Strconv.parseDigits (Strconv.formatUintAux fuel u acc) 0
    = Strconv.parseDigits acc u.
Proof.
  induction fuel as [|fuel IH]; intros u acc Hu.
  - cbn in Hu. assert (u = 0) by lia. subst. reflexivity.
  - rewrite formatUintAux_S. cbn [pow10] in Hu.
    destruct (Z.ltb_spec u 10).
    + rewrite parseDigits_digit by apply mod10_range.
      rewrite Z.mod_small by lia. reflexivity.
    + rewrite IH by (split; [apply Z.div_pos; lia|apply Z.div_lt_upper_bound; lia]).
      rewrite parseDigits_digit by apply mod10_range.
      f_equal. pose proof (Z.div_mod u 10 ltac:(lia)). lia.
Qed.

Lemma formatUintAux_head (fuel : nat) :
  forall u acc,
    exists d r, 0 <= d < 10
      /\ Strconv.formatUintAux (S fuel) u acc = String (Strconv.digitChar d) r.
Proof.
  induction fuel as [|fuel IH]; intros u acc.
  - exists (u mod 10), acc. split; [apply mod10_range|].
    rewrite formatUintAux_S. now destruct (u <? 10).
  - rewrite formatUintAux_S. destruct (u <? 10).
    + exists (u mod 10), acc. split; [apply mod10_range|reflexivity].
    + apply IH.
Qed.

Lemma parseDigits_formatUint (u : Z) :
  0 <= u < 2 ^ 64 -> Strconv.parseDigits (Strconv.formatUint u) 0 = Some u.
Proof.
  intros H. unfold Strconv.formatUint. rewrite parseDigits_formatUintAux; [reflexivity|].
  change (pow10 20) with 100000000000000000000. lia.
Qed.

Lemma ParseUint_nonempty (c : ascii) (r : string) :
  Strconv.ParseUint (String c r)
  = do? n <- Strconv.parseDigits (String c r) 0; if n <? 2 ^ 64 then Some n else None.
Proof. reflexivity. Qed.

Lemma ParseUint_formatUint (u : Z) :
  0 <= u < 2 ^ 64 -> Strconv.ParseUint (Strconv.formatUint u) = Some u.
Proof.
  intros H.
  destruct (formatUintAux_head 19 u "") as (d & r & Hd & E).
  fold (Strconv.formatUint u) in E.
  rewrite E, ParseUint_nonempty, <- E, (parseDigits_formatUint u H). cbn [obind].
  destruct (Z.ltb_spec u (2 ^ 64)); [reflexivity|lia].
Qed.

(** [ParseInt] reads back what [FormatInt] prints, for every [int64]. *)
Lemma ParseInt_FormatInt (i : Z) :
  inInt64 i -> Strconv.ParseInt (Strconv.FormatInt i) = Some i.
Proof.
  unfold inInt64, minInt64, maxInt64. intros H.
  unfold Strconv.FormatInt. destruct (Z.ltb_spec i 0).
  - unfold Strconv.ParseInt. cbn [Ascii.eqb Bool.eqb]. cbv iota beta.
    rewrite ParseUint_formatUint by lia. cbn [obind negb andb].
    destruct (Z.gtb_spec (- i) (2 ^ 63)); [lia|].
    f_equal. lia.
  - destruct (formatUintAux_head 19 i "") as (d & r & Hd & E).
    fold (Strconv.formatUint i) in E.
    rewrite E. unfold Strconv.ParseInt.
    rewrite digitChar_not_plus, digitChar_not_minus by assumption.
    rewrite <- E, ParseUint_formatUint by lia. cbn [obind negb andb].
    destruct (Z.geb_spec i (2 ^ 63)); [lia|reflexivity].
Qed.
